(** * vscode-phpcs-fixer: the fix workflow of [src/extension.ts]

    A shallow embedding of the [PHPCSFIXER] class: configuration reading,
    command-line construction, the life cycle of one fix operation and the
    document formatting provider.  The host editor, the file system and the
    external formatter process are explicit: the host's answers are read
    from a [Host] record, the file system is a finite map from paths to
    contents, and a spawned process is the sequence of events it delivers
    to the listeners the extension registers on it. *)

From Stdlib Require Import Ascii String ZArith Lia.
From stdpp Require Import gmap strings pretty.

Local Open Scope Z_scope.

(** ** JavaScript string primitives used by the extension

    A JavaScript string is modelled as a [string] whose characters stand
    for code units below 256. *)
Module Js.

Definition startsWith (s pre : string) : bool := String.prefix pre s.

Fixpoint drop (n : nat) (s : string) : string :=
  match n, s with
  | O, _ => s
  | S _, EmptyString => EmptyString
  | S k, String _ s' => drop k s'
  end.

(** [String.prototype.includes]. *)
Fixpoint includes (s needle : string) : bool :=
  String.prefix needle s
  || match s with
     | EmptyString => false
     | String _ s' => includes s' needle
     end.

(** [String.prototype.split] with a string separator.  [skip] counts the
    characters of a separator occurrence that are still to be consumed. *)
Fixpoint split_go (sep : string) (skip : nat) (s : string) : list string :=
  match s with
  | EmptyString => [EmptyString]
  | String c s' =>
      match skip with
      | S k => split_go sep k s'
      | O =>
          if String.prefix sep s
          then EmptyString :: split_go sep (Nat.pred (String.length sep)) s'
          else match split_go sep O s' with
               | p :: ps => String c p :: ps
               | [] => [String c EmptyString]
               end
      end
  end.

Fixpoint chars (s : string) : list string :=
  match s with
  | EmptyString => []
  | String c s' => String c EmptyString :: chars s'
  end.

Definition split (s sep : string) : list string :=
  match sep with
  | EmptyString => chars s
  | _ => split_go sep O s
  end.

(** First occurrence of [pat] in [s]: the text before it and after it. *)
Fixpoint find_first (pat s : string) : option (string * string) :=
  if String.prefix pat s then Some (EmptyString, drop (String.length pat) s)
  else match s with
       | EmptyString => None
       | String c s' =>
           match find_first pat s' with
           | Some (b, a) => Some (String c b, a)
           | None => None
           end
       end.

Definition is_digit (c : ascii) : bool :=
  (48 <=? nat_of_ascii c)%nat && (nat_of_ascii c <=? 57)%nat.

Definition digit_val (c : ascii) : nat := (nat_of_ascii c - 48)%nat.

(** A capture group that did not take part in the match is [None]. *)
Definition capture (caps : list (option string)) (n : nat) : option string :=
  match n with
  | O => None
  | S k => match caps !! k with
           | Some c => Some (default EmptyString c)
           | None => None
           end
  end.

(** The [GetSubstitution] operation behind [String.prototype.replace]:
    [$$], [$&], [$`], [$'] and [$n] / [$nn] in the replacement text
    (there are no named groups in the patterns of the extension). *)
Fixpoint get_substitution (matched before after : string)
    (caps : list (option string)) (tpl : string) : string :=
  match tpl with
  | EmptyString => EmptyString
  | String c tl =>
      if negb (Ascii.eqb c "$") then
        String c (get_substitution matched before after caps tl)
      else
        match tl with
        | EmptyString => String c EmptyString
        | String d rest =>
            let go := get_substitution matched before after caps in
            let one_digit :=
              match capture caps (digit_val d) with
              | Some t => t +:+ go rest
              | None => String c (String d (go rest))
              end in
            if Ascii.eqb d "$" then String "$" (go rest)
            else if Ascii.eqb d "&" then matched +:+ go rest
            else if Ascii.eqb d "`" then before +:+ go rest
            else if Ascii.eqb d "'" then after +:+ go rest
            else if is_digit d then
              match rest with
              | String e rest2 =>
                  if is_digit e then
                    let idx := (10 * digit_val d + digit_val e)%nat in
                    if (idx <=? length caps)%nat then
                      match capture caps idx with
                      | Some t => t +:+ go rest2
                      | None => String c (String d (String e (go rest2)))
                      end
                    else one_digit
                  else one_digit
              | EmptyString => one_digit
              end
            else String c (go tl)
        end
  end.

(** [s.replace(pat, tpl)] with a string pattern: the first occurrence. *)
Definition replace (s pat tpl : string) : string :=
  match find_first pat s with
  | None => s
  | Some (b, a) => b +:+ get_substitution pat b a [] tpl +:+ a
  end.

(** [s.replace(/^~\//, tpl)]. *)
Definition replace_home (s tpl : string) : string :=
  if startsWith s "~/"
  then get_substitution "~/" EmptyString (drop 2 s) [] tpl +:+ drop 2 s
  else s.

(** [s.replace(/^\$\{workspace(Root|Folder)\}/, tpl)]. *)
Definition replace_workspace (s tpl : string) : string :=
  if startsWith s "${workspaceRoot}" then
    let a := drop 16 s in
    get_substitution "${workspaceRoot}" EmptyString a [Some "Root"] tpl +:+ a
  else if startsWith s "${workspaceFolder}" then
    let a := drop 18 s in
    get_substitution "${workspaceFolder}" EmptyString a [Some "Folder"] tpl +:+ a
  else s.

Definition is_line_terminator (c : ascii) : bool :=
  Ascii.eqb c "010" || Ascii.eqb c "013".

Definition is_slash (c : ascii) : bool :=
  Ascii.eqb c "/" || Ascii.eqb c "\".

(** The text that follows the match of [/^.*[\\/]/]: [.] stops at a line
    terminator and [.*] is greedy, so the match ends at the last slash or
    backslash of the first line. *)
Fixpoint after_dirname (s : string) : option string :=
  match s with
  | EmptyString => None
  | String c s' =>
      if is_line_terminator c then None
      else match after_dirname s' with
           | Some r => Some r
           | None => if is_slash c then Some s' else None
           end
  end.

(** [s.replace(/^.*[\\/]/, '/')]. *)
Definition replace_dirname (s : string) : string :=
  match after_dirname s with
  | Some r => "/" +:+ r
  | None => s
  end.

(** Truthiness of a possibly undefined string. *)
Definition truthy (o : option string) : bool :=
  match o with
  | Some s => negb (String.eqb s EmptyString)
  | None => false
  end.

(** [a || b] on possibly undefined strings. *)
Definition or_else (a b : option string) : option string :=
  if truthy a then a else b.

End Js.

(** ** [JSON.stringify] on the values a settings file can hold

    Numbers are the integers; object members are listed in enumeration
    order. *)
Module JSON.

#[warnings="-register-all"] Inductive value :=
| Null
| Bool (b : bool)
| Number (n : Z)
| Str (s : string)
| Array (items : list value)
| Object (members : list (string * value)).

Definition hex_digit (n : nat) : ascii :=
  ascii_of_nat (if (n <? 10)%nat then 48 + n else 87 + n).

(** One code unit inside a quoted JSON string. *)
Definition quote_char (c : ascii) : string :=
  let n := nat_of_ascii c in
  if Ascii.eqb c "034" then String "\" (String "034" EmptyString)
  else if Ascii.eqb c "\" then "\\"
  else if (n =? 8)%nat then "\b"
  else if (n =? 9)%nat then "\t"
  else if (n =? 10)%nat then "\n"
  else if (n =? 12)%nat then "\f"
  else if (n =? 13)%nat then "\r"
  else if (n <? 32)%nat then
    "\u00" +:+ String (hex_digit (n / 16)) (String (hex_digit (n mod 16)) EmptyString)
  else String c EmptyString.

Fixpoint quote_body (s : string) : string :=
  match s with
  | EmptyString => EmptyString
  | String c s' => quote_char c +:+ quote_body s'
  end.

Definition quote (s : string) : string :=
  String "034" (quote_body s) +:+ String "034" EmptyString.

Fixpoint stringify (v : value) : string :=
  match v with
  | Null => "null"
  | Bool true => "true"
  | Bool false => "false"
  | Number n => pretty n
  | Str s => quote s
  | Array items =>
      "[" +:+
      (fix elements (l : list value) : string :=
         match l with
         | [] => EmptyString
         | [x] => stringify x
         | x :: l' => stringify x +:+ "," +:+ elements l'
         end) items +:+ "]"
  | Object members =>
      "{" +:+
      (fix properties (l : list (string * value)) : string :=
         match l with
         | [] => EmptyString
         | [(k, x)] => quote k +:+ ":" +:+ stringify x
         | (k, x) :: l' => quote k +:+ ":" +:+ stringify x +:+ "," +:+ properties l'
         end) members +:+ "}"
  end.

End JSON.

(** ** Data model *)

(** The [phpcsfixer] section of the settings (interface [Config]); every
    field is optional. *)
Module Config.

Inductive rules_value :=
| RulesString (s : string)
| RulesObject (o : JSON.value).

Record t := mk {
  execPath : option string;
  rules : option rules_value;
  config : option string;
  onsave : option bool
}.

(** The [{}] that replaces a falsy answer of the host. *)
Definition empty : t :=
  {| execPath := None; rules := None; config := None; onsave := None |}.

Definition onsave_truthy (c : t) : bool := default false (onsave c).

(** [this.config.rules] as a condition: a non-empty string or an object. *)
Definition rules_truthy (c : t) : bool :=
  match rules c with
  | Some (RulesString s) => negb (String.eqb s EmptyString)
  | Some (RulesObject _) => true
  | None => false
  end.

End Config.

Inductive Exception :=
| TypeError
| ENOENT.

(** What [workspace.getConfiguration("phpcsfixer")] does. *)
Inductive ConfigurationAnswer :=
| ConfigurationThrows (e : Exception)
| ConfigurationFalsy
| Configuration (c : Config.t).

(** The answers of the platform and of the editor that the extension reads. *)
Record Host := {
  platform : string;
  __dirname : string;
  homedir : string;
  tmpdir : string;
  isAbsolute : string -> bool;
  getConfiguration : ConfigurationAnswer;
  (** [window.activeTextEditor.document.uri.fsPath] *)
  activeDocumentPath : string;
  (** [workspace.getWorkspaceFolder(uri)], as the folder's [uri.fsPath] *)
  getWorkspaceFolder : option string;
  (** [workspace.workspaceFolders], as the folders' [uri.fsPath] *)
  workspaceFolders : option (list string)
}.

(** Calls on [window] made by [showView]. *)
Inductive WindowCall :=
| setStatusBarMessage (message : string) (hideAfterTimeout : Z)
| showInformationMessage (message : string)
| showErrorMessage (message : string)
| showWarningMessage (message : string).

(** The fields of the [PHPCSFIXER] instance, followed by what the extension
    has done to its surroundings: the file system, the calls on [window],
    the processes spawned and the number of save listeners registered by
    [readConfig].  Console output is not recorded. *)
Record World := {
  isReloadingConfig : bool;
  isDeactivating : bool;
  isFixing : bool;
  config : option Config.t;
  fixOnSave : bool;
  realExecPath : option string;
  execPath : option string;
  fs : gmap string string;
  window : list WindowCall;
  spawned : list (string * list string);
  saveListeners : nat
}.

Definition set_isReloadingConfig (b : bool) (w : World) : World :=
  {| isReloadingConfig := b; isDeactivating := isDeactivating w;
     isFixing := isFixing w; config := config w; fixOnSave := fixOnSave w;
     realExecPath := realExecPath w; execPath := execPath w; fs := fs w;
     window := window w; spawned := spawned w; saveListeners := saveListeners w |}.

Definition set_isFixing (b : bool) (w : World) : World :=
  {| isReloadingConfig := isReloadingConfig w; isDeactivating := isDeactivating w;
     isFixing := b; config := config w; fixOnSave := fixOnSave w;
     realExecPath := realExecPath w; execPath := execPath w; fs := fs w;
     window := window w; spawned := spawned w; saveListeners := saveListeners w |}.

Definition set_config (c : option Config.t) (w : World) : World :=
  {| isReloadingConfig := isReloadingConfig w; isDeactivating := isDeactivating w;
     isFixing := isFixing w; config := c; fixOnSave := fixOnSave w;
     realExecPath := realExecPath w; execPath := execPath w; fs := fs w;
     window := window w; spawned := spawned w; saveListeners := saveListeners w |}.

Definition set_fixOnSave (b : bool) (listeners : nat) (w : World) : World :=
  {| isReloadingConfig := isReloadingConfig w; isDeactivating := isDeactivating w;
     isFixing := isFixing w; config := config w; fixOnSave := b;
     realExecPath := realExecPath w; execPath := execPath w; fs := fs w;
     window := window w; spawned := spawned w; saveListeners := listeners |}.

Definition set_realExecPath (p : option string) (w : World) : World :=
  {| isReloadingConfig := isReloadingConfig w; isDeactivating := isDeactivating w;
     isFixing := isFixing w; config := config w; fixOnSave := fixOnSave w;
     realExecPath := p; execPath := execPath w; fs := fs w;
     window := window w; spawned := spawned w; saveListeners := saveListeners w |}.

Definition set_execPath (p : option string) (w : World) : World :=
  {| isReloadingConfig := isReloadingConfig w; isDeactivating := isDeactivating w;
     isFixing := isFixing w; config := config w; fixOnSave := fixOnSave w;
     realExecPath := realExecPath w; execPath := p; fs := fs w;
     window := window w; spawned := spawned w; saveListeners := saveListeners w |}.

Definition set_fs (m : gmap string string) (w : World) : World :=
  {| isReloadingConfig := isReloadingConfig w; isDeactivating := isDeactivating w;
     isFixing := isFixing w; config := config w; fixOnSave := fixOnSave w;
     realExecPath := realExecPath w; execPath := execPath w; fs := m;
     window := window w; spawned := spawned w; saveListeners := saveListeners w |}.

Definition set_window (l : list WindowCall) (w : World) : World :=
  {| isReloadingConfig := isReloadingConfig w; isDeactivating := isDeactivating w;
     isFixing := isFixing w; config := config w; fixOnSave := fixOnSave w;
     realExecPath := realExecPath w; execPath := execPath w; fs := fs w;
     window := l; spawned := spawned w; saveListeners := saveListeners w |}.

Definition set_spawned (l : list (string * list string)) (w : World) : World :=
  {| isReloadingConfig := isReloadingConfig w; isDeactivating := isDeactivating w;
     isFixing := isFixing w; config := config w; fixOnSave := fixOnSave w;
     realExecPath := realExecPath w; execPath := execPath w; fs := fs w;
     window := window w; spawned := l; saveListeners := saveListeners w |}.

(** File system calls of [fs]: a path either holds a file or is absent. *)
Definition existsSync (w : World) (path : string) : bool :=
  bool_decide (is_Some (fs w !! path)).

Definition writeFileSync (path data : string) (w : World) : World :=
  set_fs (<[path := data]> (fs w)) w.

Definition readFileSync (w : World) (path : string) : Exception + string :=
  match fs w !! path with
  | Some data => inr data
  | None => inl ENOENT
  end.

(** [unlink] with a callback that ignores the error. *)
Definition unlink (path : string) (w : World) : World :=
  set_fs (delete path (fs w)) w.

(** ** [showView] *)

Definition showView (type message : string) (w : World) : World :=
  if String.eqb type "success" then
    set_window (window w ++ [setStatusBarMessage message 5000]) w
  else if String.eqb type "info" then
    set_window (window w ++ [showInformationMessage message]) w
  else if String.eqb type "error" then
    set_window (window w ++ [showErrorMessage message]) w
  else if String.eqb type "warning" then
    set_window (window w ++ [showWarningMessage message]) w
  else w.

(** ** [readConfig] *)

Definition defaultExecPath (h : Host) : string :=
  if String.eqb (platform h) "win32" then "php-cs-fixer.bat" else "php-cs-fixer".

(** The two [replace] calls applied to the executable path. *)
Definition normalizeExecPath (h : Host) (p : string) : string :=
  Js.replace_home (Js.replace p "${extensionPath}" (__dirname h)) (homedir h +:+ "/").

(** [workspace.getConfiguration("phpcsfixer") || <any>{}] *)
Definition answerConfig (a : ConfigurationAnswer) : Exception + Config.t :=
  match a with
  | ConfigurationThrows e => inl e
  | ConfigurationFalsy => inr Config.empty
  | Configuration c => inr c
  end.

Definition readConfig (h : Host) (w : World) : World :=
  if isReloadingConfig w then w
  else
    let w := set_isReloadingConfig true w in
    match answerConfig (getConfiguration h) with
    | inl _ => set_isReloadingConfig false w
    | inr c =>
        let w := set_config (Some c) w in
        let w :=
          if Config.onsave_truthy c && negb (fixOnSave w) then
            set_fixOnSave true (S (saveListeners w)) w
          else if negb (Config.onsave_truthy c) && fixOnSave w then
            set_fixOnSave false (Nat.pred (saveListeners w)) w
          else w in
        let raw :=
          default (defaultExecPath h)
                  (Js.or_else (Config.execPath c) (Some (defaultExecPath h))) in
        let w := set_execPath (Some (normalizeExecPath h raw)) w in
        set_isReloadingConfig false w
    end.

(** ** [getActiveWorkspacePath] *)

Definition getActiveWorkspacePath (h : Host) : option string :=
  getWorkspaceFolder h.

(** ** [getArgs] *)

(** The inner loop [for (const searchPath of searchPaths)]. *)
Definition pushSearchPaths (file : string) (searchPaths files : list string)
  : list string :=
  fold_left (fun files searchPath => files ++ [searchPath +:+ file]) searchPaths files.

(** The loop [for (const file of cFiles)] that fills [files]. *)
Definition collectFiles (h : Host) (searchPaths cFiles : list string) : list string :=
  fold_left
    (fun files file =>
       if isAbsolute h file then files ++ [file]
       else if (0 <? length searchPaths)%nat then pushSearchPaths file searchPaths files
       else files)
    cFiles [].

(** The loop over [files] that stops at the first existing file; the result
    is [args] and [useConfig]. *)
Fixpoint scanFiles (w : World) (files args : list string) : list string * bool :=
  match files with
  | [] => (args, false)
  | file :: rest =>
      if existsSync w file then (args ++ ["--config=" +:+ file], true)
      else scanFiles w rest args
  end.

Definition baseArgs : list string :=
  ["fix"; "--using-cache=no"; "--path-mode=override"; "-vv"].

(** [config.split(';').filter(f => '' !== f).map(f => f.replace(/^~\//, homedir() + '/'))] *)
Definition configFiles (h : Host) (setting : string) : list string :=
  map (fun f => Js.replace_home f (homedir h +:+ "/"))
      (List.filter (fun f => negb (String.eqb EmptyString f)) (Js.split setting ";")).

(** [['.vscode', ''].map(f => rootPath + '/' + (f ? f + '/' : ''))] when
    [rootPath] is defined. *)
Definition searchPathsOf (rootPath : option string) : list string :=
  match rootPath with
  | Some root =>
      map (fun f => root +:+ "/" +:+
                    (if Js.truthy (Some f) then f +:+ "/" else EmptyString))
          [".vscode"; EmptyString]
  | None => []
  end.

(** The assignments to [realExecPath]. *)
Definition resolveRealExecPath (h : Host) (rootPath : option string) (w : World)
  : Exception + World :=
  let w := set_realExecPath None w in
  match workspaceFolders h with
  | None => inr w
  | Some folders =>
      match execPath w with
      | None => inl TypeError
      | Some p =>
          match (if Js.truthy rootPath then rootPath else head folders) with
          | Some root => inr (set_realExecPath (Some (Js.replace_workspace p root)) w)
          | None => inl TypeError
          end
      end
  end.

(** [--rules=] for the [rules] setting. *)
Definition pushRules (c : Config.t) (args : list string) : list string :=
  match Config.rules c with
  | Some (Config.RulesObject o) => args ++ ["--rules=" +:+ JSON.stringify o]
  | Some (Config.RulesString s) => args ++ ["--rules=" +:+ s]
  | None => args
  end.

Definition getArgs (h : Host) (w : World) : World * (Exception + list string) :=
  let args := baseArgs in
  let rootPath := getActiveWorkspacePath h in
  match config w with
  | None => (w, inl TypeError)
  | Some c =>
      match Config.config c with
      | None => (w, inl TypeError)
      | Some setting =>
          let cFiles := configFiles h setting in
          match resolveRealExecPath h rootPath w with
          | inl e => (set_realExecPath None w, inl e)
          | inr w =>
              let searchPaths := searchPathsOf rootPath in
              let files := collectFiles h searchPaths cFiles in
              let (args, useConfig) := scanFiles w files args in
              let args :=
                if negb useConfig && Config.rules_truthy c then pushRules c args
                else args in
              (w, inr args)
          end
      end
  end.

(** ** [fixDocument] *)

Inductive Reason :=
| NoReason
| Message (msg : string)
| ProcessError (err : string)
| Thrown (e : Exception).

Inductive Promise (A : Type) :=
| Pending
| Resolved (value : A)
| Rejected (reason : Reason).

Arguments Pending {A}.
Arguments Resolved {A} value.
Arguments Rejected {A} reason.

(** [resolve] and [reject] settle a promise once; later calls do nothing. *)
Definition resolve {A} (value : A) (p : Promise A) : Promise A :=
  match p with
  | Pending => Resolved value
  | _ => p
  end.

Definition reject {A} (reason : Reason) (p : Promise A) : Promise A :=
  match p with
  | Pending => Rejected reason
  | _ => p
  end.

(** What happens while the spawned process is alive: data on its streams,
    the [error] and [exit] events ([exit] with a null code after a signal),
    and changes the formatter makes to a file ([None]: the file is gone). *)
Inductive ProcessEvent :=
| StdoutData (buffer : string)
| StderrData (buffer : string)
| ErrorEvent (err : string)
| ExitEvent (code : option Z)
| FileChanged (path : string) (content : option string).

(** An operation in flight: the world and the promise it returned. *)
Record Running := {
  world : World;
  promise : Promise (option string)
}.

Definition lintingMarker : string :=
  "Files that were not fixed due to errors reported during linting before fixing:".

Definition outdatedMarker : string :=
  "Configuration file `.php_cs` is outdated, rename to `.php-cs-fixer.php`.".

(** The listener on [process.stderr]. *)
Definition onStderrData (buffer : string) (w : World) : World :=
  let err := buffer in
  if Js.includes err lintingMarker then
    showView "error"
      ("phpcsfixer: php syntax error" +:+ nth 1 (Js.split err "before fixing:") "undefined") w
  else if Js.includes err outdatedMarker then
    showView "info" outdatedMarker w
  else w.

Definition msgs : gmap string string :=
  <["1" := "PHP CS Fixer: php general error."]>
  (<["16" := "PHP CS Fixer: Configuration error of the application."]>
  (<["32" := "PHP CS Fixer: Configuration error of a Fixer."]>
  (<["64" := "PHP CS Fixer: Exception raised within the application."]>
  (<["fallback" := "PHP CS Fixer: Unknown error."]> ∅)))).

(** The property key an exit code stands for. *)
Definition propertyKey (code : option Z) : string :=
  match code with
  | Some n => pretty n
  | None => "null"
  end.

(** [msgs[code in msgs ? code : 'fallback']] *)
Definition exitMessage (code : option Z) : string :=
  let key := propertyKey code in
  msgs !!! (if bool_decide (is_Some (msgs !! key)) then key else "fallback").

(** [code == n] for an exit code and a number. *)
Definition looseEq (code : option Z) (n : Z) : bool :=
  match code with
  | Some c => Z.eqb c n
  | None => false
  end.

(** The listener on the [error] event. *)
Definition onError (err : string) (r : Running) : Running :=
  {| world := world r; promise := reject (ProcessError err) (promise r) |}.

(** The listener on the [exit] event.  When [readFileSync] throws, the
    listener is left at that point. *)
Definition onExit (filePath : string) (code : option Z) (r : Running) : Running :=
  let settled : option Running :=
    if looseEq code 0 then
      match readFileSync (world r) filePath with
      | inl _ => None
      | inr fixed =>
          let p :=
            if (0 <? String.length fixed)%nat then resolve (Some fixed) (promise r)
            else reject NoReason (promise r) in
          Some {| world := showView "success" "PHP CS Fixer: Fixed all files!" (world r);
                  promise := p |}
      end
    else
      let msg := exitMessage code in
      let w := if negb (looseEq code 16) then showView "error" msg (world r)
               else world r in
      Some {| world := w; promise := reject (Message msg) (promise r) |} in
  match settled with
  | None => r
  | Some r =>
      {| world := set_isFixing false (unlink filePath (world r));
         promise := promise r |}
  end.

Definition deliver (filePath : string) (r : Running) (ev : ProcessEvent) : Running :=
  match ev with
  | StdoutData _ => r
  | StderrData buffer => {| world := onStderrData buffer (world r); promise := promise r |}
  | ErrorEvent err => onError err r
  | ExitEvent code => onExit filePath code r
  | FileChanged path content =>
      {| world := set_fs (match content with
                          | Some data => <[path := data]> (fs (world r))
                          | None => delete path (fs (world r))
                          end) (world r);
         promise := promise r |}
  end.

Definition run (filePath : string) (events : list ProcessEvent) (r : Running) : Running :=
  fold_left (deliver filePath) events r.

(** [tmpdir() + fsPath.replace(/^.*[\\/]/, '/')] *)
Definition tempFilePath (h : Host) : string :=
  tmpdir h +:+ Js.replace_dirname (activeDocumentPath h).

(** The part of [fixDocument] that runs before the promise is created. *)
Inductive Start :=
| Busy
| Threw (w : World) (e : Exception)
| Spawned (w : World) (filePath : string).

Definition start (h : Host) (text : string) (w : World) : Start :=
  if isFixing w then Busy
  else
    let w := set_isFixing true w in
    let filePath := tempFilePath h in
    let w := writeFileSync filePath text w in
    match getArgs h w with
    | (w, inl e) => Threw w e
    | (w, inr args) =>
        let args := args ++ [filePath] in
        match Js.or_else (realExecPath w) (execPath w) with
        | Some file =>
            if String.eqb file EmptyString then Threw w TypeError
            else Spawned (set_spawned (spawned w ++ [(file, args)]) w) filePath
        | None => Threw w TypeError
        end
    end.

(** [events] is what the spawned process does, if one is spawned. *)
Definition fixDocument (h : Host) (text : string) (events : list ProcessEvent)
    (w : World) : Running :=
  match start h text w with
  | Busy => {| world := w; promise := Resolved None |}
  | Threw w e => {| world := w; promise := Rejected (Thrown e) |}
  | Spawned w filePath => run filePath events {| world := w; promise := Pending |}
  end.

(** ** [registerDocumentProvider] *)

Record Position := { line : Z; character : Z }.

Record Range := { range_start : Position; range_end : Position }.

Record TextLine := { range : Range }.

Record TextEdit := { edit_range : Range; newText : option string }.

Record TextDocument := {
  getText : string;
  lineCount : Z;
  lineAt : Z -> TextLine
}.

(** [text != oText] for the value [fixDocument] resolved with. *)
Definition looseNe (text : option string) (oText : string) : bool :=
  match text with
  | Some t => negb (String.eqb t oText)
  | None => true
  end.

Definition registerDocumentProvider (h : Host) (document : TextDocument)
    (events : list ProcessEvent) (w : World) : World * Promise (list TextEdit) :=
  let oText := getText document in
  let lLine := lineAt document (lineCount document - 1) in
  let range := {| range_start := {| line := 0; character := 0 |};
                  range_end := range_end (range lLine) |} in
  let r := fixDocument h oText events w in
  (world r,
   match promise r with
   | Resolved text =>
       if looseNe text oText then Resolved [{| edit_range := range; newText := text |}]
       else Resolved []
   | Rejected err => Rejected err
   | Pending => Pending
   end).

(** ** Definitions used to state the properties *)

(** The candidate files of one entry of the [config] setting under a
    workspace root: the entry itself when it is absolute, otherwise its
    [.vscode/] variant followed by its root variant. *)
Definition candidatesOf (h : Host) (root entry : string) : list string :=
  if isAbsolute h entry then [entry]
  else [root +:+ "/.vscode/" +:+ entry; root +:+ "/" +:+ entry].

(** The candidate files for any list of search paths. *)
Definition variantsOf (h : Host) (searchPaths : list string) (entry : string)
  : list string :=
  if isAbsolute h entry then [entry]
  else map (fun searchPath => searchPath +:+ entry) searchPaths.

Definition missing (w : World) (path : string) : Prop := existsSync w path = false.

(** The same world with another [config] setting. *)
Definition withConfigSetting (setting : string) (w : World) : World :=
  set_config
    (match config w with
     | Some c => Some {| Config.execPath := Config.execPath c;
                         Config.rules := Config.rules c;
                         Config.config := Some setting;
                         Config.onsave := Config.onsave c |}
     | None => None
     end) w.

(** The text after [--rules=] for a [rules] setting. *)
Definition rulesText (r : Config.rules_value) : string :=
  match r with
  | Config.RulesObject o => JSON.stringify o
  | Config.RulesString s => s
  end.

(** Events that neither settle the promise nor end the operation. *)
Definition isStreamEvent (ev : ProcessEvent) : bool :=
  match ev with
  | ErrorEvent _ | ExitEvent _ => false
  | _ => true
  end.

(** The failure categories named by the specification, with the message of
    [msgs] that words each of them. *)
Inductive FailureKind :=
| GeneralError
| FixerConfigurationError
| ApplicationConfigurationError
| ExceptionRaised
| UnknownError.

Definition kindMessage (k : FailureKind) : string :=
  match k with
  | GeneralError => "PHP CS Fixer: php general error."
  | FixerConfigurationError => "PHP CS Fixer: Configuration error of a Fixer."
  | ApplicationConfigurationError => "PHP CS Fixer: Configuration error of the application."
  | ExceptionRaised => "PHP CS Fixer: Exception raised within the application."
  | UnknownError => "PHP CS Fixer: Unknown error."
  end.

(** The table as the specification words it. *)
Definition specifiedKind (code : option Z) : FailureKind :=
  if looseEq code 1 then GeneralError
  else if looseEq code 16 then FixerConfigurationError
  else if looseEq code 32 then ApplicationConfigurationError
  else if looseEq code 64 then ExceptionRaised
  else UnknownError.

(** The table with the two configuration errors as [msgs] has them. *)
Definition exitKind (code : option Z) : FailureKind :=
  if looseEq code 1 then GeneralError
  else if looseEq code 16 then ApplicationConfigurationError
  else if looseEq code 32 then FixerConfigurationError
  else if looseEq code 64 then ExceptionRaised
  else UnknownError.

(** ** A concrete host and world *)

Definition sampleConfig : Config.t :=
  {| Config.execPath := None;
     Config.rules := Some (Config.RulesObject (JSON.Object [("@PSR12", JSON.Bool true)]));
     Config.config := Some ".php-cs-fixer.php;.php_cs;~/global.php_cs";
     Config.onsave := Some true |}.

Definition sampleHost : Host :=
  {| platform := "linux";
     __dirname := "/ext/out";
     homedir := "/home/dev";
     tmpdir := "/tmp";
     isAbsolute := fun p => Js.startsWith p "/";
     getConfiguration := Configuration sampleConfig;
     activeDocumentPath := "/home/dev/shop/src/Cart.php";
     getWorkspaceFolder := Some "/home/dev/shop";
     workspaceFolders := Some ["/home/dev/shop"] |}.

Definition newWorld : World :=
  {| isReloadingConfig := false; isDeactivating := false; isFixing := false;
     config := None; fixOnSave := false; realExecPath := None; execPath := None;
     fs := ∅; window := []; spawned := []; saveListeners := 0 |}.

(** The world after the constructor has run, without any config file. *)
Definition sampleWorld : World := readConfig sampleHost newWorld.

(** The same with [.php_cs] in the workspace root and in the home directory. *)
Definition sampleWorldWithConfig : World :=
  set_fs (<["/home/dev/shop/.php_cs" := "<?php return $config;"]>
          (<["/home/dev/global.php_cs" := "<?php return $global;"]> ∅)) sampleWorld.

(** A one-line document. *)
Definition sampleDocument : TextDocument :=
  {| getText := "<?php echo 1 ;";
     lineCount := 1;
     lineAt := fun n =>
       {| range := {| range_start := {| line := n; character := 0 |};
                      range_end := {| line := n; character := 14 |} |} |} |}.

(** ** [deactivate], [onDidSaveTextDocument] and [activate] *)

Definition set_isDeactivating (b : bool) (w : World) : World :=
  {| isReloadingConfig := isReloadingConfig w; isDeactivating := b;
     isFixing := isFixing w; config := config w; fixOnSave := fixOnSave w;
     realExecPath := realExecPath w; execPath := execPath w; fs := fs w;
     window := window w; spawned := spawned w; saveListeners := saveListeners w |}.

Definition deactivate (w : World) : World :=
  if isDeactivating w then w
  else showView "info" "Extension deactivated" (set_isDeactivating true w).

Definition initialize (h : Host) (w : World) : World := readConfig h w.

Definition onDidChangeConfiguration (h : Host) (w : World) : World := readConfig h w.

(** [onDidSaveTextDocument] reads only [document.languageId]; the result is
    the list of commands passed to [commands.executeCommand]. *)
Definition onDidSaveTextDocument (languageId : string) (w : World)
  : Exception + list string :=
  if negb (String.eqb languageId "php") then inr []
  else
    match config w with
    | None => inl TypeError
    | Some c =>
        match Config.onsave c with
        | Some true => inr ["editor.action.formatDocument"]
        | _ => inr []
        end
    end.

(** What [activate] pushes on [context.subscriptions]. *)
Inductive Subscription :=
| SaveListener
| ConfigurationListener
| TextEditorCommand (command : string)
| DocumentFormattingEditProvider (language : string).

Definition activate (h : Host) (w : World) (subscriptions : list Subscription)
  : World * list Subscription :=
  (onDidChangeConfiguration h w,
   subscriptions ++ [SaveListener; ConfigurationListener;
                     TextEditorCommand "phpcsfixer.fix";
                     DocumentFormattingEditProvider "php"]).

Definition isSaveListener (s : Subscription) : bool :=
  match s with
  | SaveListener => true
  | _ => false
  end.

(** The editor saves a document: every save listener, those registered by
    [readConfig] and those registered by [activate], calls
    [onDidSaveTextDocument]; one result per listener. *)
Definition didSaveTextDocument (languageId : string) (subscriptions : list Subscription)
    (w : World) : list (Exception + list string) :=
  replicate (saveListeners w + length (List.filter isSaveListener subscriptions))
            (onDidSaveTextDocument languageId w).

(** ** Further definitions used to state properties *)

Fixpoint allChars (P : ascii -> bool) (s : string) : bool :=
  match s with
  | EmptyString => true
  | String c s' => P c && allChars P s'
  end.

(** The save listener of [readConfig] is registered once or not at all. *)
Definition listenerInvariant (w : World) : Prop :=
  saveListeners w = if fixOnSave w then 1%nat else 0%nat.

(** The host with another document in the active editor. *)
Definition withActiveDocument (path : string) (h : Host) : Host :=
  {| platform := platform h; __dirname := __dirname h; homedir := homedir h;
     tmpdir := tmpdir h; isAbsolute := isAbsolute h;
     getConfiguration := getConfiguration h; activeDocumentPath := path;
     getWorkspaceFolder := getWorkspaceFolder h;
     workspaceFolders := workspaceFolders h |}.

(** The host with another answer to [getConfiguration]. *)
Definition withConfiguration (a : ConfigurationAnswer) (h : Host) : Host :=
  {| platform := platform h; __dirname := __dirname h; homedir := homedir h;
     tmpdir := tmpdir h; isAbsolute := isAbsolute h;
     getConfiguration := a; activeDocumentPath := activeDocumentPath h;
     getWorkspaceFolder := getWorkspaceFolder h;
     workspaceFolders := workspaceFolders h |}.

(** A host without any workspace. *)
Definition withoutWorkspace (h : Host) : Host :=
  {| platform := platform h; __dirname := __dirname h; homedir := homedir h;
     tmpdir := tmpdir h; isAbsolute := isAbsolute h;
     getConfiguration := getConfiguration h;
     activeDocumentPath := activeDocumentPath h;
     getWorkspaceFolder := None; workspaceFolders := None |}.

(** Worlds for the examples of the further properties. *)
Definition relativeConfig : Config.t :=
  {| Config.execPath := None; Config.rules := None;
     Config.config := Some ".php_cs;sub/.php_cs;/etc/php_cs";
     Config.onsave := None |}.

Definition relativeWorld : World :=
  set_fs (<[".php_cs" := "<?php"]> (<["sub/.php_cs" := "<?php"]> ∅))
    (set_config (Some relativeConfig) sampleWorld).

Definition emptyRulesConfig : Config.t :=
  {| Config.execPath := None;
     Config.rules := Some (Config.RulesString EmptyString);
     Config.config := Some ".php_cs"; Config.onsave := None |}.

Definition emptyRulesWorld : World := set_config (Some emptyRulesConfig) sampleWorld.

(** * Properties *)

Example split_semicolon :
  Js.split ".php_cs;;.php_cs.dist;" ";"
  = [".php_cs"; EmptyString; ".php_cs.dist"; EmptyString].
Proof. reflexivity. Qed.

Example split_detail :
  Js.split "x before fixing: a.php before fixing: b" "before fixing:"
  = ["x "; " a.php "; " b"].
Proof. reflexivity. Qed.

Example replace_dollar :
  Js.replace "${extensionPath}/bin" "${extensionPath}" "/ext$$/$&" = "/ext$/${extensionPath}/bin".
Proof. reflexivity. Qed.

Example replace_workspace_capture :
  Js.replace_workspace "${workspaceFolder}/v" "/w$1$10$2" = "/wFolderFolder0$2/v".
Proof. reflexivity. Qed.

Example replace_dirname_path :
  Js.replace_dirname "/home/u/proj\src/a.php" = "/a.php".
Proof. reflexivity. Qed.

Example stringify_rules :
  JSON.stringify
    (JSON.Object [("@PSR2", JSON.Bool true);
                  ("array_syntax", JSON.Object [("syntax", JSON.Str "short")]);
                  ("indent", JSON.Number 4)])
  = "{" +:+ JSON.quote "@PSR2" +:+ ":true," +:+ JSON.quote "array_syntax" +:+ ":{"
    +:+ JSON.quote "syntax" +:+ ":" +:+ JSON.quote "short" +:+ "}," +:+ JSON.quote "indent" +:+ ":4}".
Proof. vm_compute. reflexivity. Qed.

Example sample_args :
  snd (getArgs sampleHost sampleWorldWithConfig)
  = inr ["fix"; "--using-cache=no"; "--path-mode=override"; "-vv";
         "--config=/home/dev/shop/.php_cs"].
Proof. vm_compute. reflexivity. Qed.

Example sample_args_rules :
  snd (getArgs sampleHost sampleWorld)
  = inr (baseArgs ++ ["--rules={" +:+ JSON.quote "@PSR12" +:+ ":true}"]).
Proof. vm_compute. reflexivity. Qed.

Example sample_fix :
  let r := fixDocument sampleHost "<?php echo 1 ;"
             [StderrData "Loaded config default."; FileChanged "/tmp/Cart.php" (Some "<?php echo 1;");
              ExitEvent (Some 0)] sampleWorldWithConfig in
  promise r = Resolved (Some "<?php echo 1;")
  /\ isFixing (world r) = false
  /\ fs (world r) !! "/tmp/Cart.php" = None
  /\ spawned (world r)
     = [("php-cs-fixer", baseArgs ++ ["--config=/home/dev/shop/.php_cs"; "/tmp/Cart.php"])].
Proof. vm_compute. repeat split. Qed.

Example linting_error_shown :
  window (world (fixDocument sampleHost "<?php echo 1"
                   [StderrData ("Files that were not fixed due to errors reported during "
                                +:+ "linting before fixing: 1) /tmp/Cart.php");
                    StderrData "Configuration file `.php_cs` is outdated, rename to `.php-cs-fixer.php`.";
                    ExitEvent (Some 1)] sampleWorld))
  = [showErrorMessage "phpcsfixer: php syntax error 1) /tmp/Cart.php";
     showInformationMessage
       "Configuration file `.php_cs` is outdated, rename to `.php-cs-fixer.php`.";
     showErrorMessage "PHP CS Fixer: php general error."].
Proof. vm_compute. reflexivity. Qed.

Example signal_exit_unknown :
  promise (fixDocument sampleHost "<?php echo 1" [ExitEvent None] sampleWorld)
  = Rejected (Message "PHP CS Fixer: Unknown error.").
Proof. vm_compute. reflexivity. Qed.

Example missing_setting_throws :
  let r := fixDocument sampleHost "<?php echo 1" [ExitEvent (Some 0)]
             (set_config (Some Config.empty) sampleWorld) in
  promise r = Rejected (Thrown TypeError) /\ isFixing (world r) = true.
Proof. vm_compute. split; reflexivity. Qed.

(** ** The life cycle of one fix operation *)

Lemma start_spawned h text w w1 filePath :
  start h text w = Spawned w1 filePath ->
  isFixing w = false /\ filePath = tempFilePath h /\ isFixing w1 = true
  /\ fs w1 = <[tempFilePath h := text]> (fs w) /\ window w1 = window w.
Proof.
  unfold start. destruct (isFixing w) eqn:Hbusy; [discriminate|].
  destruct (getArgs h _) as [w2 [e|args]] eqn:Hargs; [discriminate|].
  assert (isFixing w2 = true /\ fs w2 = <[tempFilePath h := text]> (fs w)
          /\ window w2 = window w) as (Hfix & Hfs & Hwin).
  { revert Hargs. unfold getArgs, resolveRealExecPath. simpl.
    repeat case_match; intros; simplify_eq; done. }
  destruct (Js.or_else _ _) as [file|]; [|discriminate].
  destruct (String.eqb file EmptyString); [discriminate|].
  intros [= <- <-]. done.
Qed.

Lemma run_snoc filePath events ev r :
  run filePath (events ++ [ev]) r = deliver filePath (run filePath events r) ev.
Proof. unfold run. by rewrite fold_left_app. Qed.

(** While the promise is pending, one more event is one more call of a
    listener. *)
Lemma fixDocument_snoc h text events ev w :
  promise (fixDocument h text events w) = Pending ->
  fixDocument h text (events ++ [ev]) w
  = deliver (tempFilePath h) (fixDocument h text events w) ev.
Proof.
  unfold fixDocument. destruct (start h text w) as [|w1 e|w1 filePath] eqn:Hstart.
  - discriminate.
  - discriminate.
  - intros _. apply start_spawned in Hstart as (_ & -> & _). apply run_snoc.
Qed.

Lemma window_unlink path w : window (set_isFixing false (unlink path w)) = window w.
Proof. reflexivity. Qed.

(** An [exit] event that finds the temp file readable (or carries a code
    other than 0) removes the temp file and clears the busy flag. *)
Lemma exit_cleans_up h text events code w :
  promise (fixDocument h text events w) = Pending ->
  (looseEq code 0 = true ->
   is_Some (fs (world (fixDocument h text events w)) !! tempFilePath h)) ->
  let after := fixDocument h text (events ++ [ExitEvent code]) w in
  isFixing (world after) = false /\ fs (world after) !! tempFilePath h = None.
Proof.
  intros Hpending Hfile. cbv zeta. rewrite fixDocument_snoc by done.
  simpl. unfold onExit, readFileSync.
  destruct (looseEq code 0).
  - destruct Hfile as [data ->]; [done|]. simpl. split; [done|].
    apply lookup_delete_eq.
  - simpl. split; [done|]. destruct (negb _); apply lookup_delete_eq.
Qed.

(** C1 (the code departs from the claim): when the spawned process reports
    an [error] event instead of exiting, the operation ends with its promise
    rejected, but the busy flag is still set and the temp file still holds
    the text that was written to it; every later request is then dropped
    as busy. *)
Theorem error_event_skips_cleanup h text w w1 filePath err :
  start h text w = Spawned w1 filePath ->
  let r := fixDocument h text [ErrorEvent err] w in
  promise r = Rejected (ProcessError err)
  /\ isFixing (world r) = true
  /\ fs (world r) !! filePath = Some text
  /\ forall text' events', promise (fixDocument h text' events' (world r)) = Resolved None.
Proof.
  intros Hstart. cbv zeta.
  assert (fixDocument h text [ErrorEvent err] w
          = {| world := w1; promise := Rejected (ProcessError err) |}) as ->
    by (unfold fixDocument; by rewrite Hstart).
  simpl. apply start_spawned in Hstart as (_ & -> & Hfix & Hfs & _).
  repeat split; [done| |].
  - rewrite Hfs. apply lookup_insert_eq.
  - intros text' events'. unfold fixDocument, start. by rewrite Hfix.
Qed.

Lemma error_event_skips_cleanup_witness :
  start sampleHost "<?php echo 1 ;" sampleWorld
  = Spawned
      (set_spawned
         [("php-cs-fixer",
           baseArgs ++ ["--rules={" +:+ JSON.quote "@PSR12" +:+ ":true}"; "/tmp/Cart.php"])]
         (set_realExecPath (Some "php-cs-fixer")
            (writeFileSync "/tmp/Cart.php" "<?php echo 1 ;" (set_isFixing true sampleWorld))))
      "/tmp/Cart.php"
  /\ (let r := fixDocument sampleHost "<?php echo 1 ;"
                 [ErrorEvent "spawn php-cs-fixer ENOENT"] sampleWorld in
      promise r = Rejected (ProcessError "spawn php-cs-fixer ENOENT")
      /\ isFixing (world r) = true
      /\ fs (world r) !! "/tmp/Cart.php" = Some "<?php echo 1 ;"
      /\ forall text' events',
           promise (fixDocument sampleHost text' events' (world r)) = Resolved None).
Proof.
  assert (start sampleHost "<?php echo 1 ;" sampleWorld
          = Spawned
              (set_spawned
                 [("php-cs-fixer",
                   baseArgs ++ ["--rules={" +:+ JSON.quote "@PSR12" +:+ ":true}"; "/tmp/Cart.php"])]
                 (set_realExecPath (Some "php-cs-fixer")
                    (writeFileSync "/tmp/Cart.php" "<?php echo 1 ;"
                       (set_isFixing true sampleWorld))))
              "/tmp/Cart.php") as Hstart by (vm_compute; reflexivity).
  split; [exact Hstart|].
  exact (error_event_skips_cleanup sampleHost "<?php echo 1 ;" sampleWorld _ _
           "spawn php-cs-fixer ENOENT" Hstart).
Defined.

(** C4: a request that arrives while the busy flag is set resolves at once
    with no result; the world is the one it found, so no process is spawned
    and no file is written. *)
Theorem busy_request_is_noop h text events w :
  isFixing w = true ->
  let r := fixDocument h text events w in
  promise r = Resolved None
  /\ world r = w
  /\ spawned (world r) = spawned w
  /\ fs (world r) = fs w.
Proof.
  intros Hbusy. cbv zeta. unfold fixDocument, start. rewrite Hbusy. done.
Qed.

Lemma busy_request_is_noop_witness :
  isFixing (set_isFixing true sampleWorld) = true
  /\ (let r := fixDocument sampleHost "<?php echo 2 ;" [ExitEvent (Some 0)]
                 (set_isFixing true sampleWorld) in
      promise r = Resolved None
      /\ world r = set_isFixing true sampleWorld
      /\ spawned (world r) = spawned (set_isFixing true sampleWorld)
      /\ fs (world r) = fs (set_isFixing true sampleWorld)).
Proof.
  split; [reflexivity|].
  apply (busy_request_is_noop sampleHost "<?php echo 2 ;" [ExitEvent (Some 0)]
           (set_isFixing true sampleWorld)).
  reflexivity.
Defined.

(** C2: when the process exits with code 0 and the temp file is read back
    empty, the promise is rejected without a reason and the success message
    is still shown. *)
Theorem empty_output_rejected h text events w :
  promise (fixDocument h text events w) = Pending ->
  readFileSync (world (fixDocument h text events w)) (tempFilePath h) = inr EmptyString ->
  let before := fixDocument h text events w in
  let after := fixDocument h text (events ++ [ExitEvent (Some 0)]) w in
  promise after = Rejected NoReason
  /\ window (world after)
     = window (world before) ++ [setStatusBarMessage "PHP CS Fixer: Fixed all files!" 5000].
Proof.
  intros Hpending Hread. cbv zeta. rewrite fixDocument_snoc by done.
  simpl. unfold onExit. simpl. rewrite Hread. simpl. rewrite Hpending. done.
Qed.

Lemma empty_output_rejected_witness :
  let events := [FileChanged "/tmp/Cart.php" (Some EmptyString)] in
  promise (fixDocument sampleHost "<?php echo 1 ;" events sampleWorld) = Pending
  /\ readFileSync (world (fixDocument sampleHost "<?php echo 1 ;" events sampleWorld))
       (tempFilePath sampleHost) = inr EmptyString
  /\ promise (fixDocument sampleHost "<?php echo 1 ;" (events ++ [ExitEvent (Some 0)])
                sampleWorld) = Rejected NoReason
  /\ window (world (fixDocument sampleHost "<?php echo 1 ;"
                      (events ++ [ExitEvent (Some 0)]) sampleWorld))
     = window (world (fixDocument sampleHost "<?php echo 1 ;" events sampleWorld))
       ++ [setStatusBarMessage "PHP CS Fixer: Fixed all files!" 5000].
Proof.
  cbv zeta.
  assert (promise (fixDocument sampleHost "<?php echo 1 ;"
                     [FileChanged "/tmp/Cart.php" (Some EmptyString)] sampleWorld)
          = Pending) as Hpending by (vm_compute; reflexivity).
  assert (readFileSync
            (world (fixDocument sampleHost "<?php echo 1 ;"
                      [FileChanged "/tmp/Cart.php" (Some EmptyString)] sampleWorld))
            (tempFilePath sampleHost) = inr EmptyString) as Hread
    by (vm_compute; reflexivity).
  split; [exact Hpending|]. split; [exact Hread|].
  exact (empty_output_rejected sampleHost "<?php echo 1 ;"
           [FileChanged "/tmp/Cart.php" (Some EmptyString)] sampleWorld Hpending Hread).
Defined.

(** C7: when the process exits with code 0 and the temp file is read back
    non-empty, the promise is resolved with exactly the content read. *)
Theorem fixed_output_resolved h text events w fixed :
  promise (fixDocument h text events w) = Pending ->
  readFileSync (world (fixDocument h text events w)) (tempFilePath h) = inr fixed ->
  fixed <> EmptyString ->
  promise (fixDocument h text (events ++ [ExitEvent (Some 0)]) w) = Resolved (Some fixed).
Proof.
  intros Hpending Hread Hne. rewrite fixDocument_snoc by done.
  simpl. unfold onExit. simpl. rewrite Hread. simpl. rewrite Hpending.
  destruct fixed; [done|]. reflexivity.
Qed.

Lemma fixed_output_resolved_witness :
  let events := [FileChanged "/tmp/Cart.php" (Some "<?php echo 1;")] in
  promise (fixDocument sampleHost "<?php echo 1 ;" events sampleWorld) = Pending
  /\ readFileSync (world (fixDocument sampleHost "<?php echo 1 ;" events sampleWorld))
       (tempFilePath sampleHost) = inr "<?php echo 1;"
  /\ "<?php echo 1;" <> EmptyString
  /\ promise (fixDocument sampleHost "<?php echo 1 ;" (events ++ [ExitEvent (Some 0)])
                sampleWorld) = Resolved (Some "<?php echo 1;").
Proof.
  cbv zeta.
  assert (promise (fixDocument sampleHost "<?php echo 1 ;"
                     [FileChanged "/tmp/Cart.php" (Some "<?php echo 1;")] sampleWorld)
          = Pending) as Hpending by (vm_compute; reflexivity).
  assert (readFileSync
            (world (fixDocument sampleHost "<?php echo 1 ;"
                      [FileChanged "/tmp/Cart.php" (Some "<?php echo 1;")] sampleWorld))
            (tempFilePath sampleHost) = inr "<?php echo 1;") as Hread
    by (vm_compute; reflexivity).
  assert ("<?php echo 1;" <> EmptyString) as Hne by discriminate.
  split; [exact Hpending|]. split; [exact Hread|]. split; [exact Hne|].
  exact (fixed_output_resolved sampleHost "<?php echo 1 ;"
           [FileChanged "/tmp/Cart.php" (Some "<?php echo 1;")] sampleWorld
           "<?php echo 1;" Hpending Hread Hne).
Defined.

(** ** Exit codes and their messages *)

(** A decimal numeral does not start with a character that is not a digit. *)
Lemma pretty_N_go_head c x s s' :
  (forall d, pretty_N_char d <> c) ->
  s <> String c s' -> pretty_N_go x s <> String c s'.
Proof.
  intros Hdigit. revert s.
  induction (N.lt_wf_0 x) as [x _ IH]. intros s Hs.
  destruct (decide (x = 0)%N) as [->|Hpos].
  - by rewrite pretty_N_go_0.
  - rewrite pretty_N_go_step by lia. apply IH.
    + apply N.div_lt; lia.
    + intros [= Hc _]. by apply (Hdigit (x `mod` 10)%N).
Qed.

Lemma pretty_Z_not_fallback (n : Z) : pretty n <> "fallback".
Proof.
  assert (forall d, pretty_N_char d <> "f"%char) as Hdigit.
  { intros d. unfold pretty_N_char. repeat case_match; discriminate. }
  destruct n as [|p|p]; [discriminate| |discriminate].
  unfold pretty, pretty_Z, pretty, pretty_positive, pretty, pretty_N.
  destruct (decide _); [discriminate|].
  apply pretty_N_go_head; [exact Hdigit|discriminate].
Qed.

Lemma msgs_lookup_other (n : Z) :
  n <> 1 -> n <> 16 -> n <> 32 -> n <> 64 -> msgs !! pretty n = None.
Proof.
  intros H1 H16 H32 H64. unfold msgs.
  rewrite !lookup_insert_ne; [apply lookup_empty|..].
  - intros Heq. by apply (pretty_Z_not_fallback n).
  - change "64" with (pretty 64). intros Heq. by apply (inj pretty) in Heq.
  - change "32" with (pretty 32). intros Heq. by apply (inj pretty) in Heq.
  - change "16" with (pretty 16). intros Heq. by apply (inj pretty) in Heq.
  - change "1" with (pretty 1). intros Heq. by apply (inj pretty) in Heq.
Qed.

(** Every key that is looked up in [msgs] has a message, and it is the one
    of the code's row. *)
Lemma exitMessage_kind code : exitMessage code = kindMessage (exitKind code).
Proof.
  destruct code as [n|]; [|by vm_compute].
  unfold exitKind, looseEq.
  destruct (Z.eqb_spec n 1) as [->|H1]; [by vm_compute|].
  destruct (Z.eqb_spec n 16) as [->|H16]; [by vm_compute|].
  destruct (Z.eqb_spec n 32) as [->|H32]; [by vm_compute|].
  destruct (Z.eqb_spec n 64) as [->|H64]; [by vm_compute|].
  unfold exitMessage, propertyKey. rewrite msgs_lookup_other by done.
  by vm_compute.
Qed.

Lemma onExit_nonzero filePath code r :
  looseEq code 0 = false ->
  promise r = Pending ->
  promise (onExit filePath code r) = Rejected (Message (kindMessage (exitKind code)))
  /\ window (world (onExit filePath code r))
     = if looseEq code 16 then window (world r)
       else window (world r) ++ [showErrorMessage (kindMessage (exitKind code))].
Proof.
  intros Hcode Hpending. unfold onExit. rewrite Hcode, exitMessage_kind. simpl.
  rewrite Hpending. split; [done|]. by destruct (looseEq code 16).
Qed.

(** C3 as stated fails: at exit code 16 the rejection reason is not the
    message the specified table gives for a fixer-configuration error. *)
Lemma specified_table_fails_at_16 :
  promise (fixDocument sampleHost "<?php echo 1 ;" [ExitEvent (Some 16)] sampleWorld)
  <> Rejected (Message (kindMessage (specifiedKind (Some 16)))).
Proof. vm_compute. discriminate. Qed.

(** C3 (amended): for every exit code other than 0 the promise is rejected
    with the message of a fixed table that maps 1 to the general error, 16
    to the application-configuration error, 32 to the fixer-configuration
    error, 64 to the exception raised within the application and anything
    else to the unknown error; the message is the reason also for code 16,
    the one code for which no error message is shown. *)
Theorem nonzero_exit_rejected_with_table_message h text events w code :
  promise (fixDocument h text events w) = Pending ->
  looseEq code 0 = false ->
  let before := fixDocument h text events w in
  let after := fixDocument h text (events ++ [ExitEvent code]) w in
  promise after = Rejected (Message (kindMessage (exitKind code)))
  /\ window (world after)
     = if looseEq code 16 then window (world before)
       else window (world before) ++ [showErrorMessage (kindMessage (exitKind code))].
Proof.
  intros Hpending Hcode. cbv zeta. rewrite fixDocument_snoc by done.
  simpl. by apply onExit_nonzero.
Qed.

Lemma nonzero_exit_rejected_with_table_message_witness :
  promise (fixDocument sampleHost "<?php echo 1 ;" [StderrData "PHP needs to be a minimum version"]
             sampleWorld) = Pending
  /\ looseEq (Some 32) 0 = false
  /\ promise (fixDocument sampleHost "<?php echo 1 ;"
                ([StderrData "PHP needs to be a minimum version"] ++ [ExitEvent (Some 32)])
                sampleWorld)
     = Rejected (Message "PHP CS Fixer: Configuration error of a Fixer.")
  /\ window (world (fixDocument sampleHost "<?php echo 1 ;"
                      ([StderrData "PHP needs to be a minimum version"]
                       ++ [ExitEvent (Some 32)]) sampleWorld))
     = window (world (fixDocument sampleHost "<?php echo 1 ;"
                        [StderrData "PHP needs to be a minimum version"] sampleWorld))
       ++ [showErrorMessage "PHP CS Fixer: Configuration error of a Fixer."].
Proof.
  assert (promise (fixDocument sampleHost "<?php echo 1 ;"
                     [StderrData "PHP needs to be a minimum version"] sampleWorld)
          = Pending) as Hpending by (vm_compute; reflexivity).
  assert (looseEq (Some 32) 0 = false) as Hcode by reflexivity.
  split; [exact Hpending|]. split; [exact Hcode|].
  exact (nonzero_exit_rejected_with_table_message sampleHost "<?php echo 1 ;"
           [StderrData "PHP needs to be a minimum version"] sampleWorld (Some 32)
           Hpending Hcode).
Defined.

(** C6: an exit with code 16 rejects the promise with the message
    "PHP CS Fixer: Configuration error of the application." and shows
    nothing; an exit with code 64 rejects it with
    "PHP CS Fixer: Exception raised within the application." and shows that
    message as an error. *)
Theorem exit_16_silent_exit_64_shown h text events w :
  promise (fixDocument h text events w) = Pending ->
  let before := fixDocument h text events w in
  let after16 := fixDocument h text (events ++ [ExitEvent (Some 16)]) w in
  let after64 := fixDocument h text (events ++ [ExitEvent (Some 64)]) w in
  (promise after16
   = Rejected (Message "PHP CS Fixer: Configuration error of the application.")
   /\ window (world after16) = window (world before))
  /\ (promise after64
      = Rejected (Message "PHP CS Fixer: Exception raised within the application.")
      /\ window (world after64)
         = window (world before)
           ++ [showErrorMessage "PHP CS Fixer: Exception raised within the application."]).
Proof.
  intros Hpending. cbv zeta. split.
  - rewrite fixDocument_snoc by done.
    exact (onExit_nonzero (tempFilePath h) (Some 16) _ eq_refl Hpending).
  - rewrite fixDocument_snoc by done.
    exact (onExit_nonzero (tempFilePath h) (Some 64) _ eq_refl Hpending).
Qed.

Lemma exit_16_silent_exit_64_shown_witness :
  promise (fixDocument sampleHost "<?php echo 1 ;" [] sampleWorldWithConfig) = Pending
  /\ (promise (fixDocument sampleHost "<?php echo 1 ;" ([] ++ [ExitEvent (Some 16)])
                 sampleWorldWithConfig)
      = Rejected (Message "PHP CS Fixer: Configuration error of the application.")
      /\ window (world (fixDocument sampleHost "<?php echo 1 ;" ([] ++ [ExitEvent (Some 16)])
                          sampleWorldWithConfig))
         = window (world (fixDocument sampleHost "<?php echo 1 ;" [] sampleWorldWithConfig)))
  /\ (promise (fixDocument sampleHost "<?php echo 1 ;" ([] ++ [ExitEvent (Some 64)])
                 sampleWorldWithConfig)
      = Rejected (Message "PHP CS Fixer: Exception raised within the application.")
      /\ window (world (fixDocument sampleHost "<?php echo 1 ;" ([] ++ [ExitEvent (Some 64)])
                          sampleWorldWithConfig))
         = window (world (fixDocument sampleHost "<?php echo 1 ;" [] sampleWorldWithConfig))
           ++ [showErrorMessage "PHP CS Fixer: Exception raised within the application."]).
Proof.
  assert (promise (fixDocument sampleHost "<?php echo 1 ;" [] sampleWorldWithConfig)
          = Pending) as Hpending by (vm_compute; reflexivity).
  split; [exact Hpending|].
  exact (exit_16_silent_exit_64_shown sampleHost "<?php echo 1 ;" [] sampleWorldWithConfig
           Hpending).
Defined.

(** ** The formatting provider *)

(** C9: when the fix operation resolves with a text, the provider resolves
    with one edit from position (0,0) to the end of the last line that
    carries the text if it differs from the document's text, and with no
    edit if it is the same. *)
Theorem provider_edit_list h document events w text :
  promise (fixDocument h (getText document) events w) = Resolved (Some text) ->
  snd (registerDocumentProvider h document events w)
  = if String.eqb text (getText document) then Resolved []
    else Resolved
           [{| edit_range :=
                 {| range_start := {| line := 0; character := 0 |};
                    range_end :=
                      range_end (range (lineAt document (lineCount document - 1))) |};
               newText := Some text |}].
Proof.
  intros Hfixed. unfold registerDocumentProvider. simpl. rewrite Hfixed. simpl.
  by destruct (String.eqb text (getText document)).
Qed.

Lemma provider_edit_list_witness :
  promise (fixDocument sampleHost (getText sampleDocument)
             [FileChanged "/tmp/Cart.php" (Some "<?php echo 1;"); ExitEvent (Some 0)]
             sampleWorld) = Resolved (Some "<?php echo 1;")
  /\ snd (registerDocumentProvider sampleHost sampleDocument
            [FileChanged "/tmp/Cart.php" (Some "<?php echo 1;"); ExitEvent (Some 0)]
            sampleWorld)
     = Resolved
         [{| edit_range :=
               {| range_start := {| line := 0; character := 0 |};
                  range_end := {| line := 0; character := 14 |} |};
             newText := Some "<?php echo 1;" |}].
Proof.
  assert (promise (fixDocument sampleHost (getText sampleDocument)
                     [FileChanged "/tmp/Cart.php" (Some "<?php echo 1;"); ExitEvent (Some 0)]
                     sampleWorld) = Resolved (Some "<?php echo 1;")) as Hfixed
    by (vm_compute; reflexivity).
  split; [exact Hfixed|].
  exact (provider_edit_list sampleHost sampleDocument
           [FileChanged "/tmp/Cart.php" (Some "<?php echo 1;"); ExitEvent (Some 0)]
           sampleWorld "<?php echo 1;" Hfixed).
Defined.

Example provider_same_text :
  snd (registerDocumentProvider sampleHost sampleDocument
         [ExitEvent (Some 0)] sampleWorld) = Resolved [].
Proof. vm_compute. reflexivity. Qed.

(** ** The executable path *)

Lemma normalize_default h : normalizeExecPath h (defaultExecPath h) = defaultExecPath h.
Proof. unfold defaultExecPath. by destruct (String.eqb (platform h) "win32"). Qed.

(** C10: when the [execPath] setting is undefined or empty, [readConfig]
    takes "php-cs-fixer.bat" on win32 and "php-cs-fixer" elsewhere, and
    stores what the [${extensionPath}] and [~/] replacements make of it
    (they leave either default as it is). *)
Theorem default_executable h w c :
  isReloadingConfig w = false ->
  answerConfig (getConfiguration h) = inr c ->
  Js.truthy (Config.execPath c) = false ->
  let fallback :=
    if String.eqb (platform h) "win32" then "php-cs-fixer.bat" else "php-cs-fixer" in
  execPath (readConfig h w)
  = Some (Js.replace_home (Js.replace fallback "${extensionPath}" (__dirname h))
                          (homedir h +:+ "/"))
  /\ execPath (readConfig h w) = Some fallback.
Proof.
  intros Hidle Hanswer Hunset. cbv zeta.
  assert (execPath (readConfig h w) = Some (normalizeExecPath h (defaultExecPath h)))
    as Hexec.
  { unfold readConfig. rewrite Hidle, Hanswer. simpl.
    unfold Js.or_else. by rewrite Hunset. }
  split; [exact Hexec|]. by rewrite Hexec, normalize_default.
Qed.

Lemma default_executable_witness :
  isReloadingConfig newWorld = false
  /\ answerConfig (getConfiguration sampleHost) = inr sampleConfig
  /\ Js.truthy (Config.execPath sampleConfig) = false
  /\ execPath (readConfig sampleHost newWorld)
     = Some (Js.replace_home (Js.replace "php-cs-fixer" "${extensionPath}" "/ext/out")
                             "/home/dev/")
  /\ execPath (readConfig sampleHost newWorld) = Some "php-cs-fixer".
Proof.
  split; [reflexivity|]. split; [reflexivity|]. split; [reflexivity|].
  exact (default_executable sampleHost newWorld sampleConfig eq_refl eq_refl eq_refl).
Defined.

Example executable_placeholders :
  execPath (readConfig
              {| platform := "win32"; __dirname := "C:\ext"; homedir := "C:\Users\dev";
                 tmpdir := "C:\Temp"; isAbsolute := fun _ => false;
                 getConfiguration :=
                   Configuration {| Config.execPath := Some "${extensionPath}/php-cs-fixer.phar";
                                    Config.rules := None; Config.config := None;
                                    Config.onsave := None |};
                 activeDocumentPath := "C:\w\a.php"; getWorkspaceFolder := None;
                 workspaceFolders := None |} newWorld)
  = Some "C:\ext/php-cs-fixer.phar".
Proof. vm_compute. reflexivity. Qed.

(** ** Config file discovery *)

Lemma append_assoc (a b c : string) : (a +:+ b) +:+ c = a +:+ b +:+ c.
Proof.
  induction a as [|x a IH]; [done|].
  change (String x ((a +:+ b) +:+ c) = String x (a +:+ b +:+ c)). by rewrite IH.
Qed.

Lemma pushSearchPaths_app file searchPaths files :
  pushSearchPaths file searchPaths files
  = files ++ map (fun searchPath => searchPath +:+ file) searchPaths.
Proof.
  unfold pushSearchPaths. revert files.
  induction searchPaths as [|sp sps IH]; intros files; simpl.
  - by rewrite app_nil_r.
  - rewrite IH. by rewrite <- app_assoc.
Qed.

(** The two loops list the variants entry by entry, in the order of the
    entries and, for one entry, in the order of the search paths. *)
Lemma collectFiles_flat_map h searchPaths cFiles :
  collectFiles h searchPaths cFiles = flat_map (variantsOf h searchPaths) cFiles.
Proof.
  unfold collectFiles.
  enough (forall acc,
    fold_left
      (fun files file =>
         if isAbsolute h file then files ++ [file]
         else if (0 <? length searchPaths)%nat
              then pushSearchPaths file searchPaths files
              else files) cFiles acc
    = acc ++ flat_map (variantsOf h searchPaths) cFiles) as Hgen by apply Hgen.
  induction cFiles as [|file rest IH]; intros acc; simpl.
  - by rewrite app_nil_r.
  - rewrite IH, app_assoc. f_equal. unfold variantsOf.
    destruct (isAbsolute h file); [done|].
    destruct (0 <? length searchPaths)%nat eqn:Hlen.
    + apply pushSearchPaths_app.
    + destruct searchPaths; [|discriminate]. by rewrite app_nil_r.
Qed.

Lemma variantsOf_root h root entry :
  variantsOf h (searchPathsOf (Some root)) entry = candidatesOf h root entry.
Proof.
  unfold variantsOf, candidatesOf. destruct (isAbsolute h entry); [done|].
  simpl. by rewrite !append_assoc.
Qed.

Lemma collectFiles_root h root cFiles :
  collectFiles h (searchPathsOf (Some root)) cFiles
  = flat_map (candidatesOf h root) cFiles.
Proof.
  rewrite collectFiles_flat_map.
  induction cFiles as [|entry rest IH]; [done|].
  cbn [flat_map]. by rewrite IH, variantsOf_root.
Qed.

(** The scan stops at the first file that exists. *)
Lemma scanFiles_first w pre p post args :
  Forall (missing w) pre ->
  existsSync w p = true ->
  scanFiles w (pre ++ p :: post) args = (args ++ ["--config=" +:+ p], true).
Proof.
  intros Hpre Hp. induction Hpre as [|f pre Hf _ IH]; simpl.
  - by rewrite Hp.
  - unfold missing in Hf. by rewrite Hf.
Qed.

Lemma scanFiles_none w files args :
  Forall (missing w) files -> scanFiles w files args = (args, false).
Proof.
  intros Hfiles. induction Hfiles as [|f files Hf _ IH]; simpl; [done|].
  unfold missing in Hf. by rewrite Hf.
Qed.

Lemma first_existing w files :
  Exists (fun f => existsSync w f = true) files ->
  exists pre p post,
    files = pre ++ p :: post /\ Forall (missing w) pre /\ existsSync w p = true.
Proof.
  induction files as [|f files IH]; intros Hex.
  - by apply Exists_nil in Hex.
  - destruct (existsSync w f) eqn:Hf.
    + by exists [], f, files.
    + apply Exists_cons in Hex as [Hex|Hex]; [congruence|].
      destruct (IH Hex) as (pre & p & post & -> & Hpre & Hp).
      exists (f :: pre), p, post. repeat split; [|done]. by constructor.
Qed.

Lemma resolveRealExecPath_world h rootPath w w1 :
  resolveRealExecPath h rootPath w = inr w1 ->
  fs w1 = fs w /\ config w1 = config w.
Proof.
  unfold resolveRealExecPath. repeat case_match; intros; simplify_eq; done.
Qed.

Lemma existsSync_fs w w1 path : fs w1 = fs w -> existsSync w1 path = existsSync w path.
Proof. unfold existsSync. by intros ->. Qed.

Lemma missing_fs w w1 files :
  fs w1 = fs w -> Forall (missing w) files -> Forall (missing w1) files.
Proof.
  intros Hfs Hall. eapply Forall_impl; [exact Hall|].
  intros f. unfold missing. by rewrite (existsSync_fs w w1 f Hfs).
Qed.

(** [getArgs] once the setting is there and the executable path resolved. *)
Lemma getArgs_unfold h w w1 c setting :
  config w = Some c ->
  Config.config c = Some setting ->
  resolveRealExecPath h (getActiveWorkspacePath h) w = inr w1 ->
  getArgs h w
  = (w1, inr (let (args, useConfig) :=
                scanFiles w1
                  (collectFiles h (searchPathsOf (getActiveWorkspacePath h))
                     (configFiles h setting)) baseArgs in
              if negb useConfig && Config.rules_truthy c then pushRules c args
              else args)).
Proof.
  intros Hc Hsetting Hresolve. unfold getArgs. rewrite Hc, Hsetting, Hresolve.
  by destruct (scanFiles _ _ _).
Qed.

Lemma getArgs_first_match h w w1 c setting pre p post :
  config w = Some c ->
  Config.config c = Some setting ->
  resolveRealExecPath h (getActiveWorkspacePath h) w = inr w1 ->
  collectFiles h (searchPathsOf (getActiveWorkspacePath h)) (configFiles h setting)
  = pre ++ p :: post ->
  Forall (missing w) pre ->
  existsSync w p = true ->
  getArgs h w = (w1, inr (baseArgs ++ ["--config=" +:+ p])).
Proof.
  intros Hc Hsetting Hresolve Hfiles Hpre Hp.
  rewrite (getArgs_unfold h w w1 c setting) by done.
  apply resolveRealExecPath_world in Hresolve as [Hfs _].
  rewrite Hfiles, (scanFiles_first w1 pre p post).
  - done.
  - by apply (missing_fs w).
  - by rewrite (existsSync_fs w).
Qed.

(** *** Entries of the [config] setting *)

Lemma prefix_single x c s :
  String.prefix (String x EmptyString) (String c s) = bool_decide (x = c).
Proof.
  simpl. destruct (ascii_dec x c) as [->|Hne].
  - rewrite bool_decide_eq_true_2 by done. by destruct s.
  - by rewrite bool_decide_eq_false_2.
Qed.

Lemma split_go_cons sep skip s : exists p ps, Js.split_go sep skip s = p :: ps.
Proof.
  revert skip. induction s as [|c s IH]; intros skip.
  - by exists EmptyString, [].
  - cbn [Js.split_go]. destruct skip as [|k]; [|apply IH].
    destruct (String.prefix sep (String c s)); [by eexists _, _|].
    destruct (IH O) as (p & ps & ->). by eexists _, _.
Qed.

(** A semicolon between two texts separates their entries. *)
Lemma split_semicolon_app a b :
  Js.split (a +:+ ";" +:+ b) ";" = Js.split a ";" ++ Js.split b ";".
Proof.
  unfold Js.split. induction a as [|c a IH].
  - change (EmptyString +:+ ";" +:+ b) with (String ";" b).
    cbn [Js.split_go]. by rewrite prefix_single, bool_decide_eq_true_2.
  - change (String c a +:+ ";" +:+ b) with (String c (a +:+ ";" +:+ b)).
    cbn [Js.split_go]. rewrite !prefix_single.
    destruct (bool_decide (";"%char = c)).
    + cbn [String.length Nat.pred]. by rewrite IH.
    + rewrite IH. by destruct (split_go_cons ";" O a) as (p & ps & ->).
Qed.

Lemma configFiles_app h a b :
  configFiles h (a +:+ ";" +:+ b) = configFiles h a ++ configFiles h b.
Proof.
  unfold configFiles. by rewrite split_semicolon_app, List.filter_app, map_app.
Qed.

Lemma resolveRealExecPath_set_config h rootPath c w w1 :
  resolveRealExecPath h rootPath w = inr w1 ->
  resolveRealExecPath h rootPath (set_config c w) = inr (set_config c w1).
Proof.
  unfold resolveRealExecPath. simpl. repeat case_match; intros; simplify_eq; done.
Qed.

Lemma resolveRealExecPath_root h root exe w :
  execPath w = Some exe ->
  root <> EmptyString ->
  exists w1, resolveRealExecPath h (Some root) w = inr w1.
Proof.
  intros Hexe Hroot. unfold resolveRealExecPath. simpl. rewrite Hexe.
  destruct (workspaceFolders h); [|by eexists].
  destruct root; [done|]. by eexists.
Qed.

(** C5: with a workspace root, the candidates are the entries of the
    [config] setting in their order, each relative entry as its [.vscode/]
    variant followed by its root variant; the first candidate that exists
    becomes the one [--config=] argument, whatever follows it in the
    setting, and entries added after it change nothing. *)
Theorem config_discovery_first_match h w c setting root exe pre p post :
  config w = Some c ->
  Config.config c = Some setting ->
  execPath w = Some exe ->
  getActiveWorkspacePath h = Some root ->
  root <> EmptyString ->
  flat_map (candidatesOf h root) (configFiles h setting) = pre ++ p :: post ->
  Forall (missing w) pre ->
  existsSync w p = true ->
  snd (getArgs h w) = inr (baseArgs ++ ["--config=" +:+ p])
  /\ forall later,
       snd (getArgs h (withConfigSetting (setting +:+ ";" +:+ later) w))
       = inr (baseArgs ++ ["--config=" +:+ p]).
Proof.
  intros Hc Hsetting Hexe Hroot Hne Hfiles Hpre Hp.
  destruct (resolveRealExecPath_root h root exe w Hexe Hne) as [w1 Hresolve].
  rewrite <- Hroot in Hresolve. split.
  - rewrite (getArgs_first_match h w w1 c setting pre p post); try done.
    by rewrite Hroot, collectFiles_root.
  - intros later.
    pose (c' := {| Config.execPath := Config.execPath c; Config.rules := Config.rules c;
                   Config.config := Some (setting +:+ ";" +:+ later);
                   Config.onsave := Config.onsave c |}).
    assert (withConfigSetting (setting +:+ ";" +:+ later) w = set_config (Some c') w)
      as -> by (unfold withConfigSetting; by rewrite Hc).
    rewrite (getArgs_first_match h (set_config (Some c') w) (set_config (Some c') w1) c'
               (setting +:+ ";" +:+ later) pre p
               (post ++ flat_map (candidatesOf h root) (configFiles h later))); try done.
    + by apply resolveRealExecPath_set_config.
    + rewrite Hroot, collectFiles_root, configFiles_app, flat_map_app, Hfiles.
      by rewrite <- app_assoc.
Qed.

Lemma config_discovery_first_match_witness :
  config sampleWorldWithConfig = Some sampleConfig
  /\ Config.config sampleConfig = Some ".php-cs-fixer.php;.php_cs;~/global.php_cs"
  /\ execPath sampleWorldWithConfig = Some "php-cs-fixer"
  /\ getActiveWorkspacePath sampleHost = Some "/home/dev/shop"
  /\ "/home/dev/shop" <> EmptyString
  /\ flat_map (candidatesOf sampleHost "/home/dev/shop")
       (configFiles sampleHost ".php-cs-fixer.php;.php_cs;~/global.php_cs")
     = ["/home/dev/shop/.vscode/.php-cs-fixer.php"; "/home/dev/shop/.php-cs-fixer.php";
        "/home/dev/shop/.vscode/.php_cs"]
       ++ "/home/dev/shop/.php_cs" :: ["/home/dev/global.php_cs"]
  /\ Forall (missing sampleWorldWithConfig)
       ["/home/dev/shop/.vscode/.php-cs-fixer.php"; "/home/dev/shop/.php-cs-fixer.php";
        "/home/dev/shop/.vscode/.php_cs"]
  /\ existsSync sampleWorldWithConfig "/home/dev/shop/.php_cs" = true
  /\ existsSync sampleWorldWithConfig "/home/dev/global.php_cs" = true
  /\ snd (getArgs sampleHost sampleWorldWithConfig)
     = inr (baseArgs ++ ["--config=/home/dev/shop/.php_cs"])
  /\ forall later,
       snd (getArgs sampleHost
              (withConfigSetting
                 (".php-cs-fixer.php;.php_cs;~/global.php_cs" +:+ ";" +:+ later)
                 sampleWorldWithConfig))
       = inr (baseArgs ++ ["--config=/home/dev/shop/.php_cs"]).
Proof.
  assert (Forall (missing sampleWorldWithConfig)
            ["/home/dev/shop/.vscode/.php-cs-fixer.php"; "/home/dev/shop/.php-cs-fixer.php";
             "/home/dev/shop/.vscode/.php_cs"]) as Hpre
    by (repeat constructor; vm_compute; reflexivity).
  assert ("/home/dev/shop" <> EmptyString) as Hne by discriminate.
  assert (flat_map (candidatesOf sampleHost "/home/dev/shop")
            (configFiles sampleHost ".php-cs-fixer.php;.php_cs;~/global.php_cs")
          = ["/home/dev/shop/.vscode/.php-cs-fixer.php"; "/home/dev/shop/.php-cs-fixer.php";
             "/home/dev/shop/.vscode/.php_cs"]
            ++ "/home/dev/shop/.php_cs" :: ["/home/dev/global.php_cs"]) as Hfiles
    by (vm_compute; reflexivity).
  assert (existsSync sampleWorldWithConfig "/home/dev/shop/.php_cs" = true) as Hp
    by (vm_compute; reflexivity).
  assert (existsSync sampleWorldWithConfig "/home/dev/global.php_cs" = true) as Hlater
    by (vm_compute; reflexivity).
  assert (config sampleWorldWithConfig = Some sampleConfig) as Hc
    by (vm_compute; reflexivity).
  assert (execPath sampleWorldWithConfig = Some "php-cs-fixer") as Hexe
    by (vm_compute; reflexivity).
  split; [exact Hc|]. split; [reflexivity|]. split; [exact Hexe|].
  split; [reflexivity|]. split; [exact Hne|]. split; [exact Hfiles|].
  split; [exact Hpre|]. split; [exact Hp|]. split; [exact Hlater|].
  exact (config_discovery_first_match sampleHost sampleWorldWithConfig sampleConfig
           ".php-cs-fixer.php;.php_cs;~/global.php_cs" "/home/dev/shop" "php-cs-fixer"
           _ _ _ Hc eq_refl Hexe eq_refl Hne Hfiles Hpre Hp).
Defined.

(** ** Rules *)

(** C8: when a candidate config file exists, the arguments end with its
    [--config=] argument and none of them starts with [--rules=], whatever
    the [rules] setting; when none exists and [rules] is set (an object or a
    non-empty string, as the code tests it), the arguments end with
    [--rules=] followed by [JSON.stringify] of the object or by the string
    itself. *)
Theorem rules_only_without_config h w w1 c setting :
  config w = Some c ->
  Config.config c = Some setting ->
  resolveRealExecPath h (getActiveWorkspacePath h) w = inr w1 ->
  let files :=
    collectFiles h (searchPathsOf (getActiveWorkspacePath h)) (configFiles h setting) in
  (Exists (fun f => existsSync w f = true) files ->
   exists p args,
     In p files
     /\ snd (getArgs h w) = inr args
     /\ args = baseArgs ++ ["--config=" +:+ p]
     /\ Forall (fun a => Js.startsWith a "--rules=" = false) args)
  /\ (Forall (missing w) files ->
      forall r,
        Config.rules c = Some r ->
        Config.rules_truthy c = true ->
        snd (getArgs h w)
        = inr (baseArgs
               ++ ["--rules=" +:+ match r with
                                  | Config.RulesObject o => JSON.stringify o
                                  | Config.RulesString s => s
                                  end])).
Proof.
  intros Hc Hsetting Hresolve. cbv zeta. split.
  - intros Hex. apply first_existing in Hex as (pre & p & post & Hfiles & Hpre & Hp).
    exists p, (baseArgs ++ ["--config=" +:+ p]). split; [|split; [|split]].
    + rewrite Hfiles. apply in_or_app. right. by left.
    + by rewrite (getArgs_first_match h w w1 c setting pre p post).
    + done.
    + repeat constructor.
  - intros Hnone r Hr Hset.
    rewrite (getArgs_unfold h w w1 c setting) by done.
    apply resolveRealExecPath_world in Hresolve as [Hfs _].
    rewrite scanFiles_none by (by apply (missing_fs w)).
    simpl. rewrite Hset. unfold pushRules. rewrite Hr. by destruct r.
Qed.

Lemma rules_only_without_config_witness :
  (exists w1,
     resolveRealExecPath sampleHost (getActiveWorkspacePath sampleHost)
       sampleWorldWithConfig = inr w1)
  /\ Exists (fun f => existsSync sampleWorldWithConfig f = true)
       (collectFiles sampleHost (searchPathsOf (getActiveWorkspacePath sampleHost))
          (configFiles sampleHost ".php-cs-fixer.php;.php_cs;~/global.php_cs"))
  /\ (exists p args,
        In p (collectFiles sampleHost (searchPathsOf (getActiveWorkspacePath sampleHost))
                (configFiles sampleHost ".php-cs-fixer.php;.php_cs;~/global.php_cs"))
        /\ snd (getArgs sampleHost sampleWorldWithConfig) = inr args
        /\ args = baseArgs ++ ["--config=" +:+ p]
        /\ Forall (fun a => Js.startsWith a "--rules=" = false) args)
  /\ Forall (missing sampleWorld)
       (collectFiles sampleHost (searchPathsOf (getActiveWorkspacePath sampleHost))
          (configFiles sampleHost ".php-cs-fixer.php;.php_cs;~/global.php_cs"))
  /\ Config.rules_truthy sampleConfig = true
  /\ snd (getArgs sampleHost sampleWorld)
     = inr (baseArgs
            ++ ["--rules=" +:+ JSON.stringify (JSON.Object [("@PSR12", JSON.Bool true)])]).
Proof.
  assert (resolveRealExecPath sampleHost (getActiveWorkspacePath sampleHost)
            sampleWorldWithConfig
          = inr (set_realExecPath (Some "php-cs-fixer") sampleWorldWithConfig)) as Hres1
    by (vm_compute; reflexivity).
  assert (resolveRealExecPath sampleHost (getActiveWorkspacePath sampleHost) sampleWorld
          = inr (set_realExecPath (Some "php-cs-fixer") sampleWorld)) as Hres2
    by (vm_compute; reflexivity).
  assert (config sampleWorldWithConfig = Some sampleConfig) as Hc1
    by (vm_compute; reflexivity).
  assert (config sampleWorld = Some sampleConfig) as Hc2 by (vm_compute; reflexivity).
  assert (Exists (fun f => existsSync sampleWorldWithConfig f = true)
            (collectFiles sampleHost (searchPathsOf (getActiveWorkspacePath sampleHost))
               (configFiles sampleHost ".php-cs-fixer.php;.php_cs;~/global.php_cs")))
    as Hex.
  { apply Exists_exists. exists "/home/dev/shop/.php_cs".
    split; vm_compute; [do 3 right; left|]; reflexivity. }
  assert (Forall (missing sampleWorld)
            (collectFiles sampleHost (searchPathsOf (getActiveWorkspacePath sampleHost))
               (configFiles sampleHost ".php-cs-fixer.php;.php_cs;~/global.php_cs")))
    as Hnone.
  { assert (collectFiles sampleHost (searchPathsOf (getActiveWorkspacePath sampleHost))
              (configFiles sampleHost ".php-cs-fixer.php;.php_cs;~/global.php_cs")
            = ["/home/dev/shop/.vscode/.php-cs-fixer.php"; "/home/dev/shop/.php-cs-fixer.php";
               "/home/dev/shop/.vscode/.php_cs"; "/home/dev/shop/.php_cs";
               "/home/dev/global.php_cs"]) as -> by (vm_compute; reflexivity).
    repeat constructor; vm_compute; reflexivity. }
  split; [by eexists|]. split; [exact Hex|].
  split.
  - exact (proj1 (rules_only_without_config sampleHost sampleWorldWithConfig _ sampleConfig
                    ".php-cs-fixer.php;.php_cs;~/global.php_cs" Hc1 eq_refl Hres1) Hex).
  - split; [exact Hnone|]. split; [reflexivity|].
    exact (proj2 (rules_only_without_config sampleHost sampleWorld _ sampleConfig
                    ".php-cs-fixer.php;.php_cs;~/global.php_cs" Hc2 eq_refl Hres2)
             Hnone _ eq_refl eq_refl).
Defined.

Example rules_string_passes_through :
  snd (getArgs sampleHost
         (set_config (Some {| Config.execPath := None;
                              Config.rules := Some (Config.RulesString "@PSR2,-braces");
                              Config.config := Some ".php_cs";
                              Config.onsave := None |}) sampleWorld))
  = inr (baseArgs ++ ["--rules=@PSR2,-braces"]).
Proof. vm_compute. reflexivity. Qed.

(** * Further properties *)

(** ** Reading the configuration *)

(** X1: when [getConfiguration] throws, [readConfig] leaves everything as it
    was: the previous configuration, executable path and save listener. *)
Theorem readConfig_failure_keeps_world h w e :
  answerConfig (getConfiguration h) = inl e ->
  readConfig h w = w.
Proof.
  intros Hthrows. unfold readConfig. rewrite Hthrows.
  destruct w as [reloading ? ? ? ? ? ? ? ? ? ?]. simpl.
  by destruct reloading.
Qed.

Lemma readConfig_failure_keeps_world_witness :
  answerConfig (getConfiguration (withConfiguration (ConfigurationThrows TypeError) sampleHost))
  = inl TypeError
  /\ readConfig (withConfiguration (ConfigurationThrows TypeError) sampleHost)
       sampleWorldWithConfig
     = sampleWorldWithConfig.
Proof.
  split; [reflexivity|].
  exact (readConfig_failure_keeps_world
           (withConfiguration (ConfigurationThrows TypeError) sampleHost)
           sampleWorldWithConfig TypeError eq_refl).
Defined.

(** X2: after a configuration has been read, a save listener is held exactly
    when [onsave] is truthy, and it is registered once however often the
    configuration is read. *)
Theorem readConfig_save_listener h w c :
  isReloadingConfig w = false ->
  answerConfig (getConfiguration h) = inr c ->
  listenerInvariant w ->
  fixOnSave (readConfig h w) = Config.onsave_truthy c
  /\ saveListeners (readConfig h w) = (if Config.onsave_truthy c then 1 else 0)%nat
  /\ listenerInvariant (readConfig h w).
Proof.
  unfold listenerInvariant, readConfig. intros -> -> Hinv. simpl.
  destruct (Config.onsave_truthy c), (fixOnSave w) eqn:Hheld; simpl;
    rewrite ?Hheld; rewrite ?Hinv; done.
Qed.

Lemma readConfig_save_listener_witness :
  isReloadingConfig sampleWorld = false
  /\ answerConfig (getConfiguration sampleHost) = inr sampleConfig
  /\ listenerInvariant sampleWorld
  /\ fixOnSave (readConfig sampleHost sampleWorld) = Config.onsave_truthy sampleConfig
  /\ saveListeners (readConfig sampleHost sampleWorld)
     = (if Config.onsave_truthy sampleConfig then 1 else 0)%nat
  /\ listenerInvariant (readConfig sampleHost sampleWorld).
Proof.
  assert (listenerInvariant sampleWorld) as Hinv by (vm_compute; reflexivity).
  split; [reflexivity|]. split; [reflexivity|]. split; [exact Hinv|].
  exact (readConfig_save_listener sampleHost sampleWorld sampleConfig eq_refl eq_refl Hinv).
Defined.

(** X3: reading the same configuration twice is the same as reading it
    once. *)
Theorem readConfig_idempotent h w :
  readConfig h (readConfig h w) = readConfig h w.
Proof.
  unfold readConfig.
  destruct w as [reloading ? ? ? held ? ? ? ? ? ?]. simpl.
  destruct reloading; simpl; [done|].
  destruct (answerConfig (getConfiguration h)) as [e|c]; simpl; [done|].
  destruct (Config.onsave_truthy c), held; simpl; reflexivity.
Qed.

(** X4: [readConfig] never touches the busy flag, the file system, the
    messages shown, the processes spawned or [realExecPath], and it returns
    with the reload guard as it found it. *)
Theorem readConfig_frame h w :
  isFixing (readConfig h w) = isFixing w
  /\ fs (readConfig h w) = fs w
  /\ window (readConfig h w) = window w
  /\ spawned (readConfig h w) = spawned w
  /\ realExecPath (readConfig h w) = realExecPath w
  /\ isDeactivating (readConfig h w) = isDeactivating w
  /\ isReloadingConfig (readConfig h w) = isReloadingConfig w.
Proof.
  unfold readConfig. destruct (isReloadingConfig w) eqn:Hguard; [done|].
  destruct (answerConfig (getConfiguration h)) as [e|c]; simpl; [done|].
  destruct (Config.onsave_truthy c), (fixOnSave w); simpl; done.
Qed.

(** *** Placeholders in the executable path *)

Lemma prefix_nil s : String.prefix EmptyString s = true.
Proof. by destruct s. Qed.

Lemma prefix_app p s : String.prefix p (p +:+ s) = true.
Proof.
  induction p as [|c p IH]; [apply prefix_nil|].
  change (String c p +:+ s) with (String c (p +:+ s)). cbn [String.prefix].
  by destruct (ascii_dec c c).
Qed.

Lemma drop_app p s : Js.drop (String.length p) (p +:+ s) = s.
Proof. induction p as [|c p IH]; [by destruct s|]. exact IH. Qed.

Lemma find_first_absent pat s :
  Js.includes s pat = false -> Js.find_first pat s = None.
Proof.
  induction s as [|c s IH]; cbn [Js.includes Js.find_first].
  - intros Hno. apply orb_false_elim in Hno as [-> _]. done.
  - intros Hno. apply orb_false_elim in Hno as [-> Hrest]. by rewrite IH.
Qed.

Lemma find_first_prefix pat s :
  Js.find_first pat (pat +:+ s) = Some (EmptyString, s).
Proof.
  destruct (pat +:+ s) eqn:Heq; cbn [Js.find_first];
    rewrite <- Heq, prefix_app, drop_app; done.
Qed.

(** A replacement text without [$] is inserted as it is. *)
Lemma get_substitution_plain matched before after caps tpl :
  Js.includes tpl "$" = false ->
  Js.get_substitution matched before after caps tpl = tpl.
Proof.
  induction tpl as [|c tpl IH]; [done|].
  cbn [Js.includes]. rewrite prefix_single. intros Hno.
  apply orb_false_elim in Hno as [Hc Hrest].
  apply bool_decide_eq_false in Hc.
  cbn [Js.get_substitution].
  destruct (Ascii.eqb_spec c "$") as [->|_]; [done|].
  simpl. by rewrite IH.
Qed.

(** X5: an [execPath] setting that starts with [~/] is stored with the home
    directory in place of the tilde, when the rest holds no
    [${extensionPath}] and the home directory holds no [$]. *)
Theorem execPath_home_expansion h w c rest :
  isReloadingConfig w = false ->
  answerConfig (getConfiguration h) = inr c ->
  Config.execPath c = Some ("~/" +:+ rest) ->
  Js.includes rest "${extensionPath}" = false ->
  Js.includes (homedir h +:+ "/") "$" = false ->
  execPath (readConfig h w) = Some (homedir h +:+ "/" +:+ rest).
Proof.
  intros Hguard Hanswer Hsetting Hrest Hhome.
  unfold readConfig. rewrite Hguard, Hanswer. simpl. rewrite Hsetting.
  unfold Js.or_else. simpl. unfold normalizeExecPath, Js.replace.
  rewrite find_first_absent.
  - unfold Js.replace_home, Js.startsWith.
    rewrite (prefix_app "~/" rest).
    change (Js.drop 2 ("~/" +:+ rest)) with rest.
    by rewrite get_substitution_plain, append_assoc.
  - change (Js.includes ("~/" +:+ rest) "${extensionPath}")
      with (Js.includes rest "${extensionPath}").
    exact Hrest.
Qed.

Lemma execPath_home_expansion_witness :
  let c := {| Config.execPath := Some ("~/" +:+ ".composer/vendor/bin/php-cs-fixer");
              Config.rules := None; Config.config := None; Config.onsave := None |} in
  isReloadingConfig newWorld = false
  /\ answerConfig (getConfiguration (withConfiguration (Configuration c) sampleHost)) = inr c
  /\ Js.includes ".composer/vendor/bin/php-cs-fixer" "${extensionPath}" = false
  /\ Js.includes (homedir (withConfiguration (Configuration c) sampleHost) +:+ "/") "$" = false
  /\ execPath (readConfig (withConfiguration (Configuration c) sampleHost) newWorld)
     = Some "/home/dev/.composer/vendor/bin/php-cs-fixer".
Proof.
  cbv zeta. split; [reflexivity|]. split; [reflexivity|].
  split; [reflexivity|]. split; [reflexivity|].
  exact (execPath_home_expansion
           (withConfiguration
              (Configuration
                 {| Config.execPath := Some ("~/" +:+ ".composer/vendor/bin/php-cs-fixer");
                    Config.rules := None; Config.config := None; Config.onsave := None |})
              sampleHost)
           newWorld _ ".composer/vendor/bin/php-cs-fixer"
           eq_refl eq_refl eq_refl eq_refl eq_refl).
Defined.

(** X6: an [execPath] setting that starts with [${extensionPath}] is stored
    with the extension's directory in its place; only this first occurrence
    is replaced, the rest is kept as it is. *)
Theorem execPath_extension_expansion h w c rest :
  isReloadingConfig w = false ->
  answerConfig (getConfiguration h) = inr c ->
  Config.execPath c = Some ("${extensionPath}" +:+ rest) ->
  Js.includes (__dirname h) "$" = false ->
  Js.startsWith (__dirname h +:+ rest) "~/" = false ->
  execPath (readConfig h w) = Some (__dirname h +:+ rest).
Proof.
  intros Hguard Hanswer Hsetting Hdir Htilde.
  unfold readConfig. rewrite Hguard, Hanswer. simpl. rewrite Hsetting.
  unfold Js.or_else. simpl. unfold normalizeExecPath, Js.replace.
  rewrite (find_first_prefix "${extensionPath}" rest).
  rewrite get_substitution_plain by done.
  change (EmptyString +:+ __dirname h +:+ rest) with (__dirname h +:+ rest).
  unfold Js.replace_home. by rewrite Htilde.
Qed.

Lemma execPath_extension_expansion_witness :
  let c := {| Config.execPath := Some ("${extensionPath}" +:+ "/${extensionPath}.phar");
              Config.rules := None; Config.config := None; Config.onsave := None |} in
  isReloadingConfig newWorld = false
  /\ answerConfig (getConfiguration (withConfiguration (Configuration c) sampleHost)) = inr c
  /\ Js.includes (__dirname (withConfiguration (Configuration c) sampleHost)) "$" = false
  /\ Js.startsWith (__dirname (withConfiguration (Configuration c) sampleHost)
                    +:+ "/${extensionPath}.phar") "~/" = false
  /\ execPath (readConfig (withConfiguration (Configuration c) sampleHost) newWorld)
     = Some "/ext/out/${extensionPath}.phar".
Proof.
  cbv zeta. split; [reflexivity|]. split; [reflexivity|].
  split; [reflexivity|]. split; [reflexivity|].
  exact (execPath_extension_expansion
           (withConfiguration
              (Configuration
                 {| Config.execPath := Some ("${extensionPath}" +:+ "/${extensionPath}.phar");
                    Config.rules := None; Config.config := None; Config.onsave := None |})
              sampleHost)
           newWorld _ "/${extensionPath}.phar" eq_refl eq_refl eq_refl eq_refl eq_refl).
Defined.

(** ** Building the arguments *)

Lemma scanFiles_cases w files args :
  scanFiles w files args = (args, false)
  \/ exists p, In p files /\ existsSync w p = true
               /\ scanFiles w files args = (args ++ ["--config=" +:+ p], true).
Proof.
  induction files as [|f files IH]; simpl; [by left|].
  destruct (existsSync w f) eqn:Hf.
  - right. exists f. by repeat split; [left|..].
  - destruct IH as [IH|(p & Hin & Hp & IH)]; [by left|].
    right. exists p. by repeat split; [right|..].
Qed.

(** Whenever [getArgs] returns, the arguments are the four base arguments
    followed by nothing, by one [--config=] of an existing file or by one
    [--rules=]; the world differs at most in [realExecPath]. *)
Lemma getArgs_cases h w w1 args :
  getArgs h w = (w1, inr args) ->
  fs w1 = fs w
  /\ (args = baseArgs
      \/ (exists p, existsSync w p = true /\ args = baseArgs ++ ["--config=" +:+ p])
      \/ (exists c r, config w = Some c /\ Config.rules c = Some r
                      /\ Config.rules_truthy c = true
                      /\ args = baseArgs ++ ["--rules=" +:+ rulesText r])).
Proof.
  unfold getArgs.
  destruct (config w) as [c|] eqn:Hc; [|discriminate].
  destruct (Config.config c) as [setting|]; [|discriminate].
  destruct (resolveRealExecPath _ _ w) as [e|w2] eqn:Hresolve; [discriminate|].
  apply resolveRealExecPath_world in Hresolve as [Hfs _].
  destruct (scanFiles_cases w2
              (collectFiles h (searchPathsOf (getActiveWorkspacePath h))
                 (configFiles h setting)) baseArgs)
    as [Hscan|(p & _ & Hp & Hscan)]; rewrite Hscan.
  - simpl. destruct (Config.rules_truthy c) eqn:Hset; intros [= <- <-].
    + split; [done|]. unfold pushRules.
      destruct (Config.rules c) as [r|] eqn:Hr; [|by left].
      right. right. exists c, r. by destruct r.
    + split; [done|]. by left.
  - simpl. intros [= <- <-]. split; [done|].
    right. left. exists p. by rewrite <- (existsSync_fs w w2 p Hfs).
Qed.

Lemma collectFiles_no_search_path h w cFiles :
  Forall (fun e => isAbsolute h e = true -> missing w e) cFiles ->
  Forall (missing w) (collectFiles h [] cFiles).
Proof.
  rewrite collectFiles_flat_map. intros Hall.
  induction Hall as [|e cFiles He _ IH]; [constructor|].
  cbn [flat_map]. unfold variantsOf at 1.
  destruct (isAbsolute h e); [|exact IH].
  constructor; [by apply He|exact IH].
Qed.

(** X7: when the active document belongs to no workspace folder, relative
    entries of the [config] setting are not probed at all: unless an
    absolute entry exists, no [--config=] is passed, whatever files there
    are. *)
Theorem relative_entries_need_workspace h w w1 c setting :
  config w = Some c ->
  Config.config c = Some setting ->
  getActiveWorkspacePath h = None ->
  resolveRealExecPath h None w = inr w1 ->
  Forall (fun e => isAbsolute h e = true -> missing w e) (configFiles h setting) ->
  snd (getArgs h w)
  = inr (if Config.rules_truthy c then pushRules c baseArgs else baseArgs).
Proof.
  intros Hc Hsetting Hroot Hresolve Hentries.
  rewrite <- Hroot in Hresolve.
  rewrite (getArgs_unfold h w w1 c setting) by done.
  apply resolveRealExecPath_world in Hresolve as [Hfs _].
  rewrite Hroot. cbn [searchPathsOf].
  rewrite scanFiles_none; [done|].
  apply (missing_fs w); [done|]. by apply collectFiles_no_search_path.
Qed.

Lemma relative_entries_need_workspace_witness :
  config relativeWorld = Some relativeConfig
  /\ Config.config relativeConfig = Some ".php_cs;sub/.php_cs;/etc/php_cs"
  /\ getActiveWorkspacePath (withoutWorkspace sampleHost) = None
  /\ resolveRealExecPath (withoutWorkspace sampleHost) None relativeWorld
     = inr (set_realExecPath None relativeWorld)
  /\ Forall (fun e => isAbsolute (withoutWorkspace sampleHost) e = true ->
                      missing relativeWorld e)
       (configFiles (withoutWorkspace sampleHost) ".php_cs;sub/.php_cs;/etc/php_cs")
  /\ existsSync relativeWorld ".php_cs" = true
  /\ snd (getArgs (withoutWorkspace sampleHost) relativeWorld) = inr baseArgs.
Proof.
  assert (Forall (fun e => isAbsolute (withoutWorkspace sampleHost) e = true ->
                           missing relativeWorld e)
            (configFiles (withoutWorkspace sampleHost) ".php_cs;sub/.php_cs;/etc/php_cs"))
    as Hentries.
  { assert (configFiles (withoutWorkspace sampleHost) ".php_cs;sub/.php_cs;/etc/php_cs"
            = [".php_cs"; "sub/.php_cs"; "/etc/php_cs"]) as -> by (vm_compute; reflexivity).
    repeat constructor; intros Habs; vm_compute in Habs; discriminate. }
  assert (resolveRealExecPath (withoutWorkspace sampleHost) None relativeWorld
          = inr (set_realExecPath None relativeWorld)) as Hresolve
    by (vm_compute; reflexivity).
  assert (config relativeWorld = Some relativeConfig) as Hc by (vm_compute; reflexivity).
  split; [exact Hc|]. split; [reflexivity|]. split; [reflexivity|].
  split; [exact Hresolve|]. split; [exact Hentries|]. split; [vm_compute; reflexivity|].
  exact (relative_entries_need_workspace (withoutWorkspace sampleHost) relativeWorld
           (set_realExecPath None relativeWorld) relativeConfig
           ".php_cs;sub/.php_cs;/etc/php_cs" Hc eq_refl eq_refl Hresolve Hentries).
Defined.

(** X8: when no candidate config file exists and the [rules] setting is
    undefined or the empty string, the arguments are the four base
    arguments and nothing else. *)
Theorem base_arguments_only h w w1 c setting :
  config w = Some c ->
  Config.config c = Some setting ->
  resolveRealExecPath h (getActiveWorkspacePath h) w = inr w1 ->
  Forall (missing w)
    (collectFiles h (searchPathsOf (getActiveWorkspacePath h)) (configFiles h setting)) ->
  Config.rules c = None \/ Config.rules c = Some (Config.RulesString EmptyString) ->
  snd (getArgs h w) = inr ["fix"; "--using-cache=no"; "--path-mode=override"; "-vv"].
Proof.
  intros Hc Hsetting Hresolve Hnone Hrules.
  rewrite (getArgs_unfold h w w1 c setting) by done.
  apply resolveRealExecPath_world in Hresolve as [Hfs _].
  rewrite scanFiles_none by (by apply (missing_fs w)).
  unfold Config.rules_truthy. by destruct Hrules as [-> | ->].
Qed.

Lemma base_arguments_only_witness :
  config emptyRulesWorld = Some emptyRulesConfig
  /\ Config.config emptyRulesConfig = Some ".php_cs"
  /\ resolveRealExecPath sampleHost (getActiveWorkspacePath sampleHost) emptyRulesWorld
     = inr (set_realExecPath (Some "php-cs-fixer") emptyRulesWorld)
  /\ Forall (missing emptyRulesWorld)
       (collectFiles sampleHost (searchPathsOf (getActiveWorkspacePath sampleHost))
          (configFiles sampleHost ".php_cs"))
  /\ (Config.rules emptyRulesConfig = None
      \/ Config.rules emptyRulesConfig = Some (Config.RulesString EmptyString))
  /\ snd (getArgs sampleHost emptyRulesWorld)
     = inr ["fix"; "--using-cache=no"; "--path-mode=override"; "-vv"].
Proof.
  assert (Forall (missing emptyRulesWorld)
            (collectFiles sampleHost (searchPathsOf (getActiveWorkspacePath sampleHost))
               (configFiles sampleHost ".php_cs"))) as Hnone.
  { assert (collectFiles sampleHost (searchPathsOf (getActiveWorkspacePath sampleHost))
              (configFiles sampleHost ".php_cs")
            = ["/home/dev/shop/.vscode/.php_cs"; "/home/dev/shop/.php_cs"]) as ->
      by (vm_compute; reflexivity).
    repeat constructor; vm_compute; reflexivity. }
  assert (resolveRealExecPath sampleHost (getActiveWorkspacePath sampleHost) emptyRulesWorld
          = inr (set_realExecPath (Some "php-cs-fixer") emptyRulesWorld)) as Hresolve
    by (vm_compute; reflexivity).
  assert (config emptyRulesWorld = Some emptyRulesConfig) as Hc
    by (vm_compute; reflexivity).
  split; [exact Hc|]. split; [reflexivity|]. split; [exact Hresolve|].
  split; [exact Hnone|]. split; [right; reflexivity|].
  exact (base_arguments_only sampleHost emptyRulesWorld
           (set_realExecPath (Some "php-cs-fixer") emptyRulesWorld) emptyRulesConfig
           ".php_cs" Hc eq_refl Hresolve Hnone (or_intror eq_refl)).
Defined.

(** X9: [getArgs] changes nothing but [realExecPath]. *)
Theorem getArgs_frame h w :
  let w' := fst (getArgs h w) in
  isFixing w' = isFixing w
  /\ fs w' = fs w
  /\ window w' = window w
  /\ spawned w' = spawned w
  /\ config w' = config w
  /\ execPath w' = execPath w
  /\ fixOnSave w' = fixOnSave w
  /\ saveListeners w' = saveListeners w.
Proof.
  cbv zeta. unfold getArgs, resolveRealExecPath.
  repeat case_match; simplify_eq; simpl; done.
Qed.

(** ** Starting a fix operation *)

Lemma getArgs_keeps h w w1 result :
  getArgs h w = (w1, result) ->
  isFixing w1 = isFixing w /\ fs w1 = fs w /\ window w1 = window w
  /\ spawned w1 = spawned w /\ execPath w1 = execPath w.
Proof.
  unfold getArgs, resolveRealExecPath.
  repeat case_match; intros; simplify_eq; simpl; done.
Qed.



(** X11: one request spawns one process; its command line is the four base
    arguments, at most one [--config=] of an existing file or one
    [--rules=], and the temp file path last; the executable is
    [realExecPath], or [execPath] when that is undefined, and is not
    empty. *)
Theorem spawned_command_line h text w w1 filePath :
  start h text w = Spawned w1 filePath ->
  exists file tail,
    spawned w1 = spawned w ++ [(file, baseArgs ++ tail ++ [tempFilePath h])]
    /\ file <> EmptyString
    /\ Js.or_else (realExecPath w1) (execPath w1) = Some file
    /\ (tail = []
        \/ (exists p, tail = ["--config=" +:+ p] /\ existsSync w1 p = true)
        \/ (exists r, tail = ["--rules=" +:+ rulesText r])).
Proof.
  unfold start. destruct (isFixing w); [discriminate|].
  destruct (getArgs h _) as [w2 [e|args]] eqn:Hargs; [discriminate|].
  destruct (getArgs_keeps _ _ _ _ Hargs) as (_ & _ & _ & Hspawned & _).
  apply getArgs_cases in Hargs as [Hfs Hshape].
  destruct (Js.or_else _ _) as [file|] eqn:Hfile; [|discriminate].
  destruct (String.eqb_spec file EmptyString) as [|Hne]; [discriminate|].
  intros [= <- <-]. exists file.
  destruct Hshape as [->|[(p & Hp & ->)|(c & r & _ & _ & _ & ->)]].
  - exists []. simpl. rewrite Hspawned. repeat split; [done..|by left].
  - exists ["--config=" +:+ p]. simpl. rewrite Hspawned.
    repeat split; [done..|]. right. left. exists p. split; [done|].
    unfold existsSync in *. simpl. by rewrite Hfs.
  - exists ["--rules=" +:+ rulesText r]. simpl. rewrite Hspawned.
    repeat split; [done..|]. right. right. by exists r.
Qed.

Lemma spawned_command_line_witness :
  start sampleHost "<?php echo 1 ;" sampleWorldWithConfig
  = Spawned
      (set_spawned
         [("php-cs-fixer", baseArgs ++ ["--config=/home/dev/shop/.php_cs"; "/tmp/Cart.php"])]
         (set_realExecPath (Some "php-cs-fixer")
            (writeFileSync "/tmp/Cart.php" "<?php echo 1 ;"
               (set_isFixing true sampleWorldWithConfig))))
      "/tmp/Cart.php"
  /\ exists file tail,
       [("php-cs-fixer", baseArgs ++ ["--config=/home/dev/shop/.php_cs"; "/tmp/Cart.php"])]
       = spawned sampleWorldWithConfig
         ++ [(file, baseArgs ++ tail ++ [tempFilePath sampleHost])]
       /\ file <> EmptyString.
Proof.
  assert (start sampleHost "<?php echo 1 ;" sampleWorldWithConfig
          = Spawned
              (set_spawned
                 [("php-cs-fixer",
                   baseArgs ++ ["--config=/home/dev/shop/.php_cs"; "/tmp/Cart.php"])]
                 (set_realExecPath (Some "php-cs-fixer")
                    (writeFileSync "/tmp/Cart.php" "<?php echo 1 ;"
                       (set_isFixing true sampleWorldWithConfig))))
              "/tmp/Cart.php") as Hstart by (vm_compute; reflexivity).
  split; [exact Hstart|].
  destruct (spawned_command_line sampleHost "<?php echo 1 ;" sampleWorldWithConfig _ _ Hstart)
    as (file & tail & Hspawned & Hne & _).
  exists file, tail. split; [exact Hspawned|exact Hne].
Defined.

(** *** The workspace placeholder *)






(** ** The temp file path *)

Lemma after_dirname_none s :
  allChars (fun c => negb (Js.is_slash c)) s = true -> Js.after_dirname s = None.
Proof.
  induction s as [|c s IH]; [done|]. cbn [allChars Js.after_dirname].
  intros Hs. apply andb_true_iff in Hs as [Hc Hs].
  rewrite (IH Hs). apply negb_true_iff in Hc. rewrite Hc.
  by destruct (Js.is_line_terminator c).
Qed.

Lemma after_dirname_last dir sep base :
  allChars (fun c => negb (Js.is_line_terminator c)) dir = true ->
  Js.is_slash sep = true ->
  allChars (fun c => negb (Js.is_slash c)) base = true ->
  Js.after_dirname (dir +:+ String sep base) = Some base.
Proof.
  intros Hdir Hsep Hbase. induction dir as [|c dir IH].
  - change (EmptyString +:+ String sep base) with (String sep base).
    cbn [Js.after_dirname]. rewrite (after_dirname_none base Hbase), Hsep.
    assert (Js.is_line_terminator sep = false) as ->; [|done].
    unfold Js.is_slash in Hsep. unfold Js.is_line_terminator.
    destruct (Ascii.eqb_spec sep "/") as [->|_]; [done|].
    destruct (Ascii.eqb_spec sep "\") as [->|_]; [done|discriminate].
  - change (String c dir +:+ String sep base) with (String c (dir +:+ String sep base)).
    cbn [allChars] in Hdir. apply andb_true_iff in Hdir as [Hc Hdir].
    cbn [Js.after_dirname]. apply negb_true_iff in Hc. by rewrite Hc, (IH Hdir).
Qed.

(** X14: the temp file is the document's base name in the temp directory:
    whatever precedes the last slash or backslash of the document path is
    dropped, so documents with the same base name share one temp file. *)
Theorem temp_file_is_base_name h dir sep base :
  activeDocumentPath h = dir +:+ String sep base ->
  allChars (fun c => negb (Js.is_line_terminator c)) dir = true ->
  Js.is_slash sep = true ->
  allChars (fun c => negb (Js.is_slash c)) base = true ->
  tempFilePath h = tmpdir h +:+ "/" +:+ base.
Proof.
  intros Hpath Hdir Hsep Hbase. unfold tempFilePath, Js.replace_dirname.
  by rewrite Hpath, after_dirname_last.
Qed.

Lemma temp_file_is_base_name_witness :
  activeDocumentPath (withActiveDocument "C:\work\shop\Cart.php" sampleHost)
  = "C:\work\shop" +:+ String "\" "Cart.php"
  /\ allChars (fun c => negb (Js.is_line_terminator c)) "C:\work\shop" = true
  /\ Js.is_slash "\" = true
  /\ allChars (fun c => negb (Js.is_slash c)) "Cart.php" = true
  /\ tempFilePath (withActiveDocument "C:\work\shop\Cart.php" sampleHost)
     = tempFilePath sampleHost.
Proof.
  split; [reflexivity|]. split; [reflexivity|]. split; [reflexivity|].
  split; [reflexivity|].
  exact (temp_file_is_base_name (withActiveDocument "C:\work\shop\Cart.php" sampleHost)
           "C:\work\shop" "\" "Cart.php" eq_refl eq_refl eq_refl eq_refl).
Defined.

(** X15: a document path without any slash or backslash (an untitled
    document) is appended to the temp directory as it is, with no separator
    in between. *)
Theorem temp_file_without_separator h :
  allChars (fun c => negb (Js.is_slash c)) (activeDocumentPath h) = true ->
  tempFilePath h = tmpdir h +:+ activeDocumentPath h.
Proof.
  intros Hplain. unfold tempFilePath, Js.replace_dirname.
  by rewrite after_dirname_none.
Qed.

Lemma temp_file_without_separator_witness :
  allChars (fun c => negb (Js.is_slash c))
    (activeDocumentPath (withActiveDocument "Untitled-1" sampleHost)) = true
  /\ tempFilePath (withActiveDocument "Untitled-1" sampleHost) = "/tmpUntitled-1".
Proof.
  split; [reflexivity|].
  exact (temp_file_without_separator (withActiveDocument "Untitled-1" sampleHost) eq_refl).
Defined.

(** ** Events of a running process *)

Lemma run_app filePath events more r :
  run filePath (events ++ more) r = run filePath more (run filePath events r).
Proof. unfold run. apply fold_left_app. Qed.

Lemma deliver_settled filePath r ev :
  promise r <> Pending -> promise (deliver filePath r ev) = promise r.
Proof.
  intros Hsettled. destruct ev as [b|b|err|code|path content]; simpl; try done.
  - unfold reject. by destruct (promise r).
  - unfold onExit. destruct (looseEq code 0).
    + destruct (readFileSync _ _); [done|]. simpl.
      destruct (0 <? _)%nat; unfold resolve, reject; by destruct (promise r).
    + simpl. unfold reject. by destruct (promise r).
Qed.

Lemma run_settled filePath events r :
  promise r <> Pending -> promise (run filePath events r) = promise r.
Proof.
  revert r. induction events as [|ev events IH]; intros r Hsettled; [done|].
  change (run filePath (ev :: events) r) with (run filePath events (deliver filePath r ev)).
  rewrite IH; rewrite deliver_settled; done.
Qed.

(** X16: the promise is settled once: whatever the process reports after
    the promise has been resolved or rejected does not change the result. *)
Theorem promise_settles_once h text events more w :
  promise (fixDocument h text events w) <> Pending ->
  promise (fixDocument h text (events ++ more) w) = promise (fixDocument h text events w).
Proof.
  unfold fixDocument. destruct (start h text w) as [|w1 e|w1 filePath]; [done..|].
  intros Hsettled. rewrite run_app. by apply run_settled.
Qed.

Lemma promise_settles_once_witness :
  promise (fixDocument sampleHost "<?php echo 1 ;" [ErrorEvent "write EPIPE"] sampleWorld)
  <> Pending
  /\ promise (fixDocument sampleHost "<?php echo 1 ;"
                ([ErrorEvent "write EPIPE"] ++ [ExitEvent (Some 0)]) sampleWorld)
     = promise (fixDocument sampleHost "<?php echo 1 ;" [ErrorEvent "write EPIPE"]
                  sampleWorld).
Proof.
  assert (promise (fixDocument sampleHost "<?php echo 1 ;" [ErrorEvent "write EPIPE"]
                     sampleWorld) <> Pending) as Hsettled
    by (vm_compute; discriminate).
  split; [exact Hsettled|].
  exact (promise_settles_once sampleHost "<?php echo 1 ;" [ErrorEvent "write EPIPE"]
           [ExitEvent (Some 0)] sampleWorld Hsettled).
Defined.

(** X17: when an [exit] event follows the [error] event, the temp file is
    removed and the busy flag cleared after all, while the promise keeps the
    error as its reason and nothing is resolved. *)
Theorem exit_after_error_cleans_up h text w w1 filePath err code :
  start h text w = Spawned w1 filePath ->
  let r := fixDocument h text [ErrorEvent err; ExitEvent code] w in
  promise r = Rejected (ProcessError err)
  /\ isFixing (world r) = false
  /\ fs (world r) !! filePath = None.
Proof.
  intros Hstart. cbv zeta. unfold fixDocument. rewrite Hstart.
  apply start_spawned in Hstart as (_ & -> & _ & Hfs & _).
  simpl. unfold onExit, readFileSync. simpl. rewrite Hfs, lookup_insert_eq.
  destruct (looseEq code 0); simpl.
  - destruct (0 <? String.length text)%nat; repeat split; apply lookup_delete_eq.
  - repeat split. destruct (negb _); apply lookup_delete_eq.
Qed.

Lemma exit_after_error_cleans_up_witness :
  (exists w1, start sampleHost "<?php echo 1 ;" sampleWorld = Spawned w1 "/tmp/Cart.php")
  /\ (let r := fixDocument sampleHost "<?php echo 1 ;"
                 [ErrorEvent "write EPIPE"; ExitEvent (Some 0)] sampleWorld in
      promise r = Rejected (ProcessError "write EPIPE")
      /\ isFixing (world r) = false
      /\ fs (world r) !! "/tmp/Cart.php" = None).
Proof.
  assert (start sampleHost "<?php echo 1 ;" sampleWorld
          = Spawned
              (set_spawned
                 [("php-cs-fixer",
                   baseArgs ++ ["--rules={" +:+ JSON.quote "@PSR12" +:+ ":true}"; "/tmp/Cart.php"])]
                 (set_realExecPath (Some "php-cs-fixer")
                    (writeFileSync "/tmp/Cart.php" "<?php echo 1 ;"
                       (set_isFixing true sampleWorld))))
              "/tmp/Cart.php") as Hstart by (vm_compute; reflexivity).
  split; [by eexists|].
  exact (exit_after_error_cleans_up sampleHost "<?php echo 1 ;" sampleWorld _ _
           "write EPIPE" (Some 0) Hstart).
Defined.

(** X18: an [exit] with code 0 that finds the temp file gone does nothing:
    the promise stays pending, nothing is shown and the busy flag stays
    set. *)
Theorem exit_without_temp_file h text events w :
  promise (fixDocument h text events w) = Pending ->
  fs (world (fixDocument h text events w)) !! tempFilePath h = None ->
  fixDocument h text (events ++ [ExitEvent (Some 0)]) w = fixDocument h text events w.
Proof.
  intros Hpending Hgone. rewrite fixDocument_snoc by done.
  simpl. unfold onExit, readFileSync. simpl. by rewrite Hgone.
Qed.

Lemma exit_without_temp_file_witness :
  promise (fixDocument sampleHost "<?php echo 1 ;" [FileChanged "/tmp/Cart.php" None]
             sampleWorld) = Pending
  /\ fs (world (fixDocument sampleHost "<?php echo 1 ;" [FileChanged "/tmp/Cart.php" None]
                  sampleWorld)) !! tempFilePath sampleHost = None
  /\ fixDocument sampleHost "<?php echo 1 ;"
       ([FileChanged "/tmp/Cart.php" None] ++ [ExitEvent (Some 0)]) sampleWorld
     = fixDocument sampleHost "<?php echo 1 ;" [FileChanged "/tmp/Cart.php" None] sampleWorld
  /\ isFixing (world (fixDocument sampleHost "<?php echo 1 ;"
                        [FileChanged "/tmp/Cart.php" None] sampleWorld)) = true.
Proof.
  assert (promise (fixDocument sampleHost "<?php echo 1 ;" [FileChanged "/tmp/Cart.php" None]
                     sampleWorld) = Pending) as Hpending by (vm_compute; reflexivity).
  assert (fs (world (fixDocument sampleHost "<?php echo 1 ;"
                       [FileChanged "/tmp/Cart.php" None] sampleWorld))
          !! tempFilePath sampleHost = None) as Hgone by (vm_compute; reflexivity).
  split; [exact Hpending|]. split; [exact Hgone|].
  split; [|vm_compute; reflexivity].
  exact (exit_without_temp_file sampleHost "<?php echo 1 ;"
           [FileChanged "/tmp/Cart.php" None] sampleWorld Hpending Hgone).
Defined.

Lemma showView_keeps type message w :
  isFixing (showView type message w) = isFixing w
  /\ spawned (showView type message w) = spawned w
  /\ fs (showView type message w) = fs w.
Proof. unfold showView. repeat case_match; done. Qed.

Lemma deliver_stream filePath r ev :
  isStreamEvent ev = true ->
  promise (deliver filePath r ev) = promise r
  /\ isFixing (world (deliver filePath r ev)) = isFixing (world r)
  /\ spawned (world (deliver filePath r ev)) = spawned (world r).
Proof.
  destruct ev as [b|b|err|code|path content]; try discriminate; intros _; simpl;
    try done.
  unfold onStderrData.
  repeat case_match; try done;
    by destruct (showView_keeps "error" (String.append "phpcsfixer: php syntax error"
                   (nth 1 (Js.split b "before fixing:") "undefined")) (world r))
         as (? & ? & ?),
       (showView_keeps "info" outdatedMarker (world r)) as (? & ? & ?).
Qed.

(** X19: as long as the process only writes to its streams or to files and
    neither exits nor fails, the operation stays pending and busy, however
    long that lasts, and every other request meanwhile is dropped. *)
Theorem running_stays_busy h text events w w1 filePath :
  start h text w = Spawned w1 filePath ->
  Forall (fun ev => isStreamEvent ev = true) events ->
  let r := fixDocument h text events w in
  promise r = Pending
  /\ isFixing (world r) = true
  /\ spawned (world r) = spawned w1
  /\ forall text' events',
       fixDocument h text' events' (world r)
       = {| world := world r; promise := Resolved None |}.
Proof.
  intros Hstart Hevents. cbv zeta.
  assert (promise (fixDocument h text events w) = Pending
          /\ isFixing (world (fixDocument h text events w)) = true
          /\ spawned (world (fixDocument h text events w)) = spawned w1)
    as (Hpending & Hbusy & Hspawned).
  { unfold fixDocument. rewrite Hstart.
    apply start_spawned in Hstart as (_ & _ & Hfix & _).
    set (r0 := {| world := w1; promise := Pending |}).
    change (spawned w1) with (spawned (world r0)).
    assert (promise r0 = Pending /\ isFixing (world r0) = true) as Hinit by done.
    clearbody r0. revert r0 Hinit.
    induction Hevents as [|ev events Hev _ IH]; intros r0 [Hp Hb]; [done|].
    change (run filePath (ev :: events) r0)
      with (run filePath events (deliver filePath r0 ev)).
    destruct (deliver_stream filePath r0 ev Hev) as (Hp' & Hb' & Hs').
    rewrite <- Hs'. apply IH. by rewrite Hp', Hb'. }
  set (r := fixDocument h text events w) in *. clearbody r.
  repeat split; [done..|].
  intros text' events'. unfold fixDocument, start. by rewrite Hbusy.
Qed.

Lemma running_stays_busy_witness :
  (exists w1, start sampleHost "<?php echo 1 ;" sampleWorld = Spawned w1 "/tmp/Cart.php")
  /\ Forall (fun ev => isStreamEvent ev = true)
       [StdoutData "Loaded config"; StderrData "PHP CS Fixer 3.0";
        FileChanged "/tmp/Cart.php" (Some "<?php echo 1;")]
  /\ (let r := fixDocument sampleHost "<?php echo 1 ;"
                 [StdoutData "Loaded config"; StderrData "PHP CS Fixer 3.0";
                  FileChanged "/tmp/Cart.php" (Some "<?php echo 1;")] sampleWorld in
      promise r = Pending /\ isFixing (world r) = true).
Proof.
  assert (start sampleHost "<?php echo 1 ;" sampleWorld
          = Spawned
              (set_spawned
                 [("php-cs-fixer",
                   baseArgs ++ ["--rules={" +:+ JSON.quote "@PSR12" +:+ ":true}"; "/tmp/Cart.php"])]
                 (set_realExecPath (Some "php-cs-fixer")
                    (writeFileSync "/tmp/Cart.php" "<?php echo 1 ;"
                       (set_isFixing true sampleWorld))))
              "/tmp/Cart.php") as Hstart by (vm_compute; reflexivity).
  assert (Forall (fun ev => isStreamEvent ev = true)
            [StdoutData "Loaded config"; StderrData "PHP CS Fixer 3.0";
             FileChanged "/tmp/Cart.php" (Some "<?php echo 1;")]) as Hevents
    by (repeat constructor).
  split; [by eexists|]. split; [exact Hevents|].
  destruct (running_stays_busy sampleHost "<?php echo 1 ;" _ sampleWorld _ _ Hstart Hevents)
    as (Hpending & Hbusy & _).
  split; [exact Hpending|exact Hbusy].
Defined.

(** X20: an [exit] event that finds the promise pending (and, for code 0,
    the temp file readable) settles the promise, removes the temp file and
    clears the busy flag, so that the next request is taken up. *)
Theorem exit_restores_idle h text events code w :
  promise (fixDocument h text events w) = Pending ->
  (looseEq code 0 = true ->
   is_Some (fs (world (fixDocument h text events w)) !! tempFilePath h)) ->
  let after := fixDocument h text (events ++ [ExitEvent code]) w in
  promise after <> Pending
  /\ isFixing (world after) = false
  /\ fs (world after) !! tempFilePath h = None
  /\ forall text', start h text' (world after) <> Busy.
Proof.
  intros Hpending Hfile. cbv zeta.
  destruct (exit_cleans_up h text events code w Hpending Hfile) as [Hidle Hgone].
  repeat split; [|done..|].
  - rewrite fixDocument_snoc by done. simpl. unfold onExit, readFileSync.
    destruct (looseEq code 0).
    + destruct Hfile as [data ->]; [done|]. simpl. rewrite Hpending.
      by destruct (0 <? String.length data)%nat.
    + simpl. by rewrite Hpending.
  - intros text'. unfold start. rewrite Hidle. repeat case_match; discriminate.
Qed.

Lemma exit_restores_idle_witness :
  promise (fixDocument sampleHost "<?php echo 1 ;" [] sampleWorld) = Pending
  /\ (looseEq (Some 0) 0 = true ->
      is_Some (fs (world (fixDocument sampleHost "<?php echo 1 ;" [] sampleWorld))
               !! tempFilePath sampleHost))
  /\ (let after := fixDocument sampleHost "<?php echo 1 ;" ([] ++ [ExitEvent (Some 0)])
                     sampleWorld in
      promise after <> Pending
      /\ isFixing (world after) = false
      /\ fs (world after) !! tempFilePath sampleHost = None
      /\ forall text', start sampleHost text' (world after) <> Busy).
Proof.
  assert (promise (fixDocument sampleHost "<?php echo 1 ;" [] sampleWorld) = Pending)
    as Hpending by (vm_compute; reflexivity).
  assert (looseEq (Some 0) 0 = true ->
          is_Some (fs (world (fixDocument sampleHost "<?php echo 1 ;" [] sampleWorld))
                   !! tempFilePath sampleHost)) as Hfile.
  { intros _. exists "<?php echo 1 ;". vm_compute. reflexivity. }
  split; [exact Hpending|]. split; [exact Hfile|].
  exact (exit_restores_idle sampleHost "<?php echo 1 ;" [] (Some 0) sampleWorld
           Hpending Hfile).
Defined.

(** ** Messages on the error stream *)

Lemma split_go_skip sep k s :
  Js.split_go sep k s = Js.split_go sep O (Js.drop k s).
Proof.
  revert k. induction s as [|c s IH]; intros k.
  - by destruct k.
  - destruct k as [|k]; [done|]. cbn [Js.split_go Js.drop]. apply IH.
Qed.

Lemma split_go_absent sep s :
  Js.includes s sep = false -> Js.split_go sep O s = [s].
Proof.
  induction s as [|c s IH]; [done|]. cbn [Js.includes Js.split_go].
  intros Hno. apply orb_false_elim in Hno as [-> Hrest]. by rewrite IH.
Qed.

Lemma split_go_first x sep s before after :
  Js.find_first (String x sep) s = Some (before, after) ->
  Js.split_go (String x sep) O s = before :: Js.split_go (String x sep) O after.
Proof.
  revert before. induction s as [|c s IH]; intros before.
  - cbn [Js.find_first String.prefix]. discriminate.
  - cbn [Js.find_first Js.split_go].
    destruct (String.prefix (String x sep) (String c s)).
    + intros [= <- <-]. cbn [String.length Nat.pred Js.drop]. by rewrite split_go_skip.
    + destruct (Js.find_first (String x sep) s) as [[b a]|]; [|discriminate].
      intros [= <- <-]. by rewrite (IH b).
Qed.

(** X21: a chunk on the error stream that holds the linting marker is shown
    as an error with the text that follows [before fixing:], whatever the
    exit code turns out to be; the promise is not settled by it. *)
Theorem linting_detail_shown h text events w buffer before detail :
  promise (fixDocument h text events w) = Pending ->
  Js.includes buffer lintingMarker = true ->
  Js.find_first "before fixing:" buffer = Some (before, detail) ->
  Js.includes detail "before fixing:" = false ->
  let r := fixDocument h text events w in
  let r' := fixDocument h text (events ++ [StderrData buffer]) w in
  window (world r')
  = window (world r) ++ [showErrorMessage ("phpcsfixer: php syntax error" +:+ detail)]
  /\ promise r' = Pending.
Proof.
  intros Hpending Hmarker Hfirst Hdetail. cbv zeta.
  rewrite fixDocument_snoc by done. simpl. split; [|done].
  unfold onStderrData. rewrite Hmarker. unfold Js.split.
  by rewrite (split_go_first _ _ _ _ _ Hfirst), (split_go_absent _ _ Hdetail).
Qed.

Lemma linting_detail_shown_witness :
  let buffer :=
    "In Runner.php line 12: " +:+ lintingMarker +:+ " 1) /tmp/Cart.php" in
  promise (fixDocument sampleHost "<?php echo 1" [] sampleWorld) = Pending
  /\ Js.includes buffer lintingMarker = true
  /\ Js.find_first "before fixing:" buffer
     = Some ("In Runner.php line 12: Files that were not fixed due to errors reported during linting ",
             " 1) /tmp/Cart.php")
  /\ Js.includes " 1) /tmp/Cart.php" "before fixing:" = false
  /\ window (world (fixDocument sampleHost "<?php echo 1" ([] ++ [StderrData buffer])
                      sampleWorld))
     = window (world (fixDocument sampleHost "<?php echo 1" [] sampleWorld))
       ++ [showErrorMessage "phpcsfixer: php syntax error 1) /tmp/Cart.php"]
  /\ promise (fixDocument sampleHost "<?php echo 1" ([] ++ [StderrData buffer]) sampleWorld)
     = Pending.
Proof.
  cbv zeta.
  assert (promise (fixDocument sampleHost "<?php echo 1" [] sampleWorld) = Pending)
    as Hpending by (vm_compute; reflexivity).
  assert (Js.includes
            ("In Runner.php line 12: " +:+ lintingMarker +:+ " 1) /tmp/Cart.php")
            lintingMarker = true) as Hmarker by (vm_compute; reflexivity).
  assert (Js.find_first "before fixing:"
            ("In Runner.php line 12: " +:+ lintingMarker +:+ " 1) /tmp/Cart.php")
          = Some ("In Runner.php line 12: Files that were not fixed due to errors reported during linting ",
                  " 1) /tmp/Cart.php")) as Hfirst by (vm_compute; reflexivity).
  assert (Js.includes " 1) /tmp/Cart.php" "before fixing:" = false) as Hdetail
    by (vm_compute; reflexivity).
  split; [exact Hpending|]. split; [exact Hmarker|]. split; [exact Hfirst|].
  split; [exact Hdetail|].
  exact (linting_detail_shown sampleHost "<?php echo 1" [] sampleWorld _ _ _
           Hpending Hmarker Hfirst Hdetail).
Defined.

(** ** The provider, save events and deactivation *)

(** X22: a formatting request that arrives while a fix is running does not
    come back empty: the provider resolves with one edit over the whole
    document whose new text is undefined, and changes nothing else. *)
Theorem provider_busy_edit h document events w :
  isFixing w = true ->
  registerDocumentProvider h document events w
  = (w, Resolved
          [{| edit_range :=
                {| range_start := {| line := 0; character := 0 |};
                   range_end :=
                     range_end (range (lineAt document (lineCount document - 1))) |};
              newText := None |}]).
Proof.
  intros Hbusy. unfold registerDocumentProvider, fixDocument, start.
  by rewrite Hbusy.
Qed.

Lemma provider_busy_edit_witness :
  isFixing (set_isFixing true sampleWorld) = true
  /\ registerDocumentProvider sampleHost sampleDocument [ExitEvent (Some 0)]
       (set_isFixing true sampleWorld)
     = (set_isFixing true sampleWorld,
        Resolved
          [{| edit_range :=
                {| range_start := {| line := 0; character := 0 |};
                   range_end := {| line := 0; character := 14 |} |};
              newText := None |}]).
Proof.
  split; [reflexivity|].
  exact (provider_busy_edit sampleHost sampleDocument [ExitEvent (Some 0)]
           (set_isFixing true sampleWorld) eq_refl).
Defined.

(** X23: once a configuration has been read, saving a document runs the
    editor's format command exactly when the document is a PHP document and
    [onsave] is [true]. *)
Theorem save_formats_php_when_onsave h w c languageId :
  isReloadingConfig w = false ->
  answerConfig (getConfiguration h) = inr c ->
  onDidSaveTextDocument languageId (readConfig h w)
  = inr (if String.eqb languageId "php" && Config.onsave_truthy c
         then ["editor.action.formatDocument"] else []).
Proof.
  intros Hguard Hanswer.
  assert (config (readConfig h w) = Some c) as Hc.
  { unfold readConfig. rewrite Hguard, Hanswer. simpl.
    by destruct (Config.onsave_truthy c), (fixOnSave w). }
  unfold onDidSaveTextDocument. rewrite Hc.
  destruct (String.eqb languageId "php"); [|done].
  unfold Config.onsave_truthy. simpl. by destruct (Config.onsave c) as [[|]|].
Qed.

Lemma save_formats_php_when_onsave_witness :
  isReloadingConfig newWorld = false
  /\ answerConfig (getConfiguration sampleHost) = inr sampleConfig
  /\ onDidSaveTextDocument "php" (readConfig sampleHost newWorld)
     = inr ["editor.action.formatDocument"]
  /\ onDidSaveTextDocument "javascript" (readConfig sampleHost newWorld) = inr [].
Proof.
  split; [reflexivity|]. split; [reflexivity|]. split.
  - exact (save_formats_php_when_onsave sampleHost newWorld sampleConfig "php"
             eq_refl eq_refl).
  - exact (save_formats_php_when_onsave sampleHost newWorld sampleConfig "javascript"
             eq_refl eq_refl).
Defined.

(** X24: with [onsave] set to [true], after [activate] a saved PHP document
    is formatted twice: the listener registered by [readConfig] and the one
    registered by [activate] each run the format command. *)
Theorem save_formats_twice_after_activate h w c subscriptions :
  isReloadingConfig w = false ->
  answerConfig (getConfiguration h) = inr c ->
  Config.onsave c = Some true ->
  listenerInvariant w ->
  List.filter isSaveListener subscriptions = [] ->
  didSaveTextDocument "php" (snd (activate h w subscriptions))
    (fst (activate h w subscriptions))
  = [inr ["editor.action.formatDocument"]; inr ["editor.action.formatDocument"]].
Proof.
  intros Hguard Hanswer Honsave Hinv Hfresh.
  unfold didSaveTextDocument, activate, onDidChangeConfiguration. cbn [fst snd].
  rewrite List.filter_app, Hfresh.
  assert (Config.onsave_truthy c = true) as Htruthy
    by (unfold Config.onsave_truthy; by rewrite Honsave).
  assert (saveListeners (readConfig h w) = 1%nat /\ config (readConfig h w) = Some c)
    as [-> Hc].
  { unfold listenerInvariant in Hinv. unfold readConfig.
    rewrite Hguard, Hanswer. simpl. rewrite Htruthy.
    destruct (fixOnSave w) eqn:Hheld; simpl; rewrite ?Hheld; by rewrite ?Hinv. }
  unfold onDidSaveTextDocument. by rewrite Hc, Honsave.
Qed.

Lemma save_formats_twice_after_activate_witness :
  isReloadingConfig sampleWorld = false
  /\ answerConfig (getConfiguration sampleHost) = inr sampleConfig
  /\ Config.onsave sampleConfig = Some true
  /\ listenerInvariant sampleWorld
  /\ saveListeners sampleWorld = 1%nat
  /\ didSaveTextDocument "php" (snd (activate sampleHost sampleWorld []))
       (fst (activate sampleHost sampleWorld []))
     = [inr ["editor.action.formatDocument"]; inr ["editor.action.formatDocument"]].
Proof.
  assert (listenerInvariant sampleWorld) as Hinv by (vm_compute; reflexivity).
  split; [reflexivity|]. split; [reflexivity|]. split; [reflexivity|].
  split; [exact Hinv|]. split; [vm_compute; reflexivity|].
  exact (save_formats_twice_after_activate sampleHost sampleWorld sampleConfig []
           eq_refl eq_refl eq_refl Hinv eq_refl).
Defined.

(** X25: [deactivate] shows its message on the first call only; a second
    call changes nothing. *)
Theorem deactivate_once w :
  deactivate (deactivate w) = deactivate w
  /\ window (deactivate w)
     = (if isDeactivating w then window w
        else window w ++ [showInformationMessage "Extension deactivated"])
  /\ isFixing (deactivate w) = isFixing w.
Proof.
  unfold deactivate. destruct (isDeactivating w) eqn:Hdone.
  - by rewrite Hdone.
  - done.
Qed.

(** ** A [config] setting without entries *)

Lemma split_semicolons s :
  allChars (fun c => Ascii.eqb c ";") s = true ->
  Forall (fun piece => piece = EmptyString) (Js.split s ";").
Proof.
  unfold Js.split. induction s as [|c s IH]; cbn [allChars].
  - intros _. by repeat constructor.
  - intros Hs. apply andb_true_iff in Hs as [Hc Hs].
    apply Ascii.eqb_eq in Hc as ->. cbn [Js.split_go].
    rewrite prefix_single, bool_decide_eq_true_2 by done.
    constructor; [done|]. by apply IH.
Qed.

Lemma configFiles_semicolons h s :
  allChars (fun c => Ascii.eqb c ";") s = true -> configFiles h s = [].
Proof.
  intros Hs. unfold configFiles.
  induction (split_semicolons s Hs) as [|piece pieces -> _ IH]; [done|].
  exact IH.
Qed.

(** X26: a [config] setting that is empty or holds only semicolons yields no
    candidate at all: no file is probed and the arguments depend on the
    [rules] setting alone. *)
Theorem setting_without_entries h w w1 c setting :
  config w = Some c ->
  Config.config c = Some setting ->
  resolveRealExecPath h (getActiveWorkspacePath h) w = inr w1 ->
  allChars (fun c => Ascii.eqb c ";") setting = true ->
  collectFiles h (searchPathsOf (getActiveWorkspacePath h)) (configFiles h setting) = []
  /\ snd (getArgs h w)
     = inr (if Config.rules_truthy c then pushRules c baseArgs else baseArgs).
Proof.
  intros Hc Hsetting Hresolve Hempty.
  rewrite (getArgs_unfold h w w1 c setting) by done.
  by rewrite configFiles_semicolons.
Qed.

Lemma setting_without_entries_witness :
  config (withConfigSetting ";;" sampleWorldWithConfig)
  = Some {| Config.execPath := Config.execPath sampleConfig;
            Config.rules := Config.rules sampleConfig;
            Config.config := Some ";;";
            Config.onsave := Config.onsave sampleConfig |}
  /\ resolveRealExecPath sampleHost (getActiveWorkspacePath sampleHost)
       (withConfigSetting ";;" sampleWorldWithConfig)
     = inr (set_realExecPath (Some "php-cs-fixer")
              (withConfigSetting ";;" sampleWorldWithConfig))
  /\ allChars (fun c => Ascii.eqb c ";") ";;" = true
  /\ snd (getArgs sampleHost (withConfigSetting ";;" sampleWorldWithConfig))
     = inr (baseArgs ++ ["--rules={" +:+ JSON.quote "@PSR12" +:+ ":true}"]).
Proof.
  assert (config (withConfigSetting ";;" sampleWorldWithConfig)
          = Some {| Config.execPath := Config.execPath sampleConfig;
                    Config.rules := Config.rules sampleConfig;
                    Config.config := Some ";;";
                    Config.onsave := Config.onsave sampleConfig |}) as Hc
    by (vm_compute; reflexivity).
  assert (resolveRealExecPath sampleHost (getActiveWorkspacePath sampleHost)
            (withConfigSetting ";;" sampleWorldWithConfig)
          = inr (set_realExecPath (Some "php-cs-fixer")
                   (withConfigSetting ";;" sampleWorldWithConfig))) as Hresolve
    by (vm_compute; reflexivity).
  split; [exact Hc|]. split; [exact Hresolve|]. split; [reflexivity|].
  exact (proj2 (setting_without_entries sampleHost
                  (withConfigSetting ";;" sampleWorldWithConfig) _ _ ";;"
                  Hc eq_refl Hresolve eq_refl)).
Defined.
